(** * wgettos: a shallow embedding of [wgettos.py]

    The script downloads one URL to a file, optionally tagging the
    connection with an IP type-of-service byte, and prints progress lines
    while it copies the response body.

    Modelling decisions.
    - Python [int] is [Z]; [bytes] is [list Byte.byte]; [str] is [string],
      a character standing for the code point of its number (the header
      values that reach the script are decoded as Latin-1).
    - Python [float] is the primitive binary64 [float]: the readings of
      [time.time()], the elapsed time, the display tick, the speed and the
      percentage are computed with the IEEE operations, and a float is
      turned into text from its exact value.  The conversion of an [int]
      to a [float] rounds to nearest; CPython raises [OverflowError]
      instead of giving an infinity, which takes a byte count above 10^308
      and is left out.
    - The network, the clock and the file system are an environment
      ([World]): it gives the clock readings, the outcome of the GET
      request, of opening the destination, of each [file.write] and of
      closing the file, and whether the body stream breaks off.  Standard
      output takes every line that is printed.
    - [os.path] is [posixpath].
    - Effects are recorded in a chronological [trace] of events.
    - The local variables of [download_with_speed] live in the machine
      state, so that they are still there when an exception is raised.
    - [main], which reads the command line with [argparse] and passes the
      URL, the marking and the output name on to [download_with_speed], is
      not part of the embedding. *)

From Stdlib Require Import ZArith QArith Qabs Lia String Ascii List.
From Stdlib Require Import PrimFloat FloatOps SpecFloat.
From stdpp Require Import base gmap strings list pretty.

Local Open Scope string_scope.
Local Open Scope Z_scope.
Local Open Scope list_scope.

(** ** The parts of the Python runtime the script uses *)

Module Py.

Definition bytes := list Byte.byte.

(** [len(chunk)] *)
Definition len (b : bytes) : Z := Z.of_nat (length b).

(** [str(n)] for an [int], as used by an f-string field [{n}]. *)
Definition str (n : Z) : string := pretty n.

Definition CR : string := String "013"%char "".
Definition LF : string := String "010"%char "".

(** White space as [int()] skips it at both ends of a [str]: the six ASCII
    characters C's [isspace] accepts, and the two code points below 256
    (NEL and NBSP) that are Unicode white space and that CPython turns
    into a blank first.  The separators 0x1C to 0x1F are not skipped. *)
Definition is_space (c : ascii) : bool :=
  let n := nat_of_ascii c in
  (((9 <=? n) && (n <=? 13)) || (n =? 32) || (n =? 133) || (n =? 160))%nat.

Fixpoint skip_spaces (s : string) : string :=
  match s with
  | String c r => if is_space c then skip_spaces r else s
  | "" => ""
  end.

Definition digit_value (c : ascii) : option Z :=
  let n := nat_of_ascii c in
  if ((48 <=? n) && (n <=? 57))%nat then Some (Z.of_nat (n - 48)) else None.

(** The scan of [PyLong_FromString] over digits and underscores: the value
    so far, the number of digits so far and the character before.  It
    stops at the first other character and gives what is left; two
    underscores in a row, or one at the end, are refused. *)
Fixpoint scan_digits (acc : Z) (digits : nat) (prev : ascii) (s : string)
  : option (Z * nat * string) :=
  match s with
  | "" => if Ascii.eqb prev "_" then None else Some (acc, digits, "")
  | String c r =>
      match digit_value c with
      | Some d => scan_digits (10 * acc + d) (S digits) c r
      | None =>
          if Ascii.eqb c "_" then
            if Ascii.eqb prev "_" then None else scan_digits acc digits c r
          else if Ascii.eqb prev "_" then None
          else Some (acc, digits, s)
      end
  end.

(** [sys.int_info.default_max_str_digits] *)
Definition max_str_digits : nat := 4300.

(** The digits of an [int] literal after the sign: no underscore in front,
    at least one digit, at most [max_str_digits] of them, and nothing but
    white space behind. *)
Definition int_unsigned (s : string) : option Z :=
  match s with
  | String "_" _ => None
  | _ =>
      match scan_digits 0 0 "000"%char s with
      | Some (n, digits, rest) =>
          match digits, skip_spaces rest with
          | O, _ => None
          | _, "" => if (digits <=? max_str_digits)%nat then Some n else None
          | _, _ => None
          end
      | None => None
      end
  end.

(** [int(s)] in base ten: [None] stands for [ValueError]. *)
Definition int (s : string) : option Z :=
  match skip_spaces s with
  | String "-"%char r => Z.opp <$> int_unsigned r
  | String "+"%char r => int_unsigned r
  | r => int_unsigned r
  end.

(** Round to the nearest integer, ties to the even one. *)
Definition round_half_even (q : Q) : Z :=
  let n := Qnum q in
  let d := Z.pos (Qden q) in
  let fl := (n / d)%Z in
  match (2 * (n mod d) ?= d)%Z with
  | Lt => fl
  | Gt => fl + 1
  | Eq => if Z.even fl then fl else fl + 1
  end.

Fixpoint pad_left (c : ascii) (n : nat) (s : string) : string :=
  match n with
  | O => s
  | S n' => String c (pad_left c n' s)
  end.

(** [s.rjust(width, c)] *)
Definition rjust (c : ascii) (width : nat) (s : string) : string :=
  pad_left c (width - String.length s) s.

(** The digits of a rational that is not negative, with [prec] decimals,
    rounded half to even. *)
Definition digits_fixed (prec : nat) (x : Q) : string :=
  let scale := 10 ^ Z.of_nat prec in
  let n := round_half_even (x * inject_Z scale)%Q in
  let frac :=
    match prec with
    | O => ""
    | _ => "." +:+ rjust "0"%char prec (str (n mod scale))
    end in
  str (n / scale) +:+ frac.

Definition sign_text (negative : bool) : string :=
  if negative then "-" else "".

(** The text of [f"{x:.{prec}f}"] for a float: its sign, then [inf],
    [nan] or the digits of its exact value. *)
Definition fixed (prec : nat) (x : float) : string :=
  match Prim2SF x with
  | S754_nan => "nan"
  | S754_infinity s => sign_text s +:+ "inf"
  | S754_zero s => sign_text s +:+ digits_fixed prec 0
  | S754_finite s m e =>
      sign_text s +:+ digits_fixed prec (inject_Z (Z.pos m) * 2 ^ e)%Q
  end.

(** The text of [f"{x:{width}.{prec}f}"]: numbers are right-aligned. *)
Definition format_f (width prec : nat) (x : float) : string :=
  rjust " "%char width (fixed prec x).

(** The exact value of an [int] as a binary float of any length. *)
Definition SF_of_int (n : Z) : spec_float :=
  match n with
  | Z0 => S754_zero false
  | Zpos p => S754_finite false p 0
  | Zneg p => S754_finite true p 0
  end.

(** [float(n)] for an [int]: the nearest float (below the range where
    CPython raises [OverflowError]). *)
Definition float_of_int (n : Z) : float :=
  SF2Prim (binary_normalize prec emax n 0 false).

(** [a / b] for two [int]s with [b] not zero: the float nearest to the
    exact quotient. *)
Definition int_truediv (a b : Z) : float :=
  SF2Prim (SFdiv prec emax (SF_of_int a) (SF_of_int b)).

(** The rational a float stands for (0 for an infinity or a NaN). *)
Definition exact (x : float) : Q :=
  match Prim2SF x with
  | S754_finite s m e =>
      let v := (inject_Z (Z.pos m) * 2 ^ e)%Q in if s then (- v)%Q else v
  | _ => 0%Q
  end.

(** [x or y] on an optional string: [None] and [''] are falsy. *)
Definition or_ (x : option string) (y : string) : string :=
  match x with
  | Some (String c r) => String c r
  | Some "" | None => y
  end.

(** [s.rfind(c)], with [-1] when [c] does not occur. *)
Fixpoint rfind (c : ascii) (s : string) : Z :=
  match s with
  | "" => -1
  | String a r =>
      let i := rfind c r in
      if (0 <=? i)%Z then i + 1
      else if Ascii.eqb a c then 0 else -1
  end.

(** [s[i:]] for [0 <= i]. *)
Fixpoint slice_from (i : nat) (s : string) : string :=
  match i, s with
  | O, _ => s
  | S i', String _ r => slice_from i' r
  | S _, "" => ""
  end.

(** [posixpath.basename]: [i = p.rfind('/') + 1; return p[i:]]. *)
Definition basename (p : string) : string :=
  let i := rfind "/"%char p + 1 in
  slice_from (Z.to_nat i) p.

End Py.

(** ** The HTTP response as the script sees it *)

(** [response.headers] is urllib3's [HTTPHeaderDict]: field names compare
    without regard to case, and the values of a repeated field are joined
    with a comma and a space. *)
Module Headers.

Definition t := list (string * string).

Definition lower_ascii (c : ascii) : ascii :=
  let n := nat_of_ascii c in
  if ((65 <=? n) && (n <=? 90))%nat then ascii_of_nat (n + 32) else c.

Fixpoint lower (s : string) : string :=
  match s with
  | "" => ""
  | String c r => String (lower_ascii c) (lower r)
  end.

Definition values (name : string) (h : t) : list string :=
  snd <$> filter (fun kv => lower (fst kv) = lower name) h.

(** [name in headers] *)
Definition contains (name : string) (h : t) : bool :=
  match values name h with
  | [] => false
  | _ => true
  end.

Fixpoint join (sep : string) (l : list string) : string :=
  match l with
  | [] => ""
  | [x] => x
  | x :: r => x +:+ sep +:+ join sep r
  end.

(** [headers[name]], for a name that is present. *)
Definition getitem (name : string) (h : t) : string :=
  join ", " (values name h).

End Headers.

Record Response := mkResponse {
  headers : Headers.t;
  (** the chunks that [response.stream(1024)] yields, in order, before it
      ends or breaks off *)
  chunks : list Py.bytes
}.

(** ** Exceptions, events and the environment *)

Inductive exn :=
| ZeroDivisionError
| ValueError
| OSError (errno : Z)
| MaxRetryError
| ProtocolError.

(** One socket option: level, option name, value. *)
Definition sockopt : Type := Z * Z * Z.

(** [socket.IPPROTO_IP] and [socket.IP_TOS] (their Linux values). *)
Definition IPPROTO_IP : Z := 0.
Definition IP_TOS : Z := 1.

Inductive event :=
| Clock (t : float)
    (** a call of [time.time()] and the reading it returned *)
| Request (method url : string) (connection_pool_kw : gmap string (list sockopt))
    (** [manager.request], with the pool keywords the manager holds *)
| CloseResponse
| OpenFile (filename mode : string)
| Write (chunk : Py.bytes)
| CloseFile
| Print (text end_ : string).

Record World := mkWorld {
  (** the reading returned by the [n]-th call of [time.time()] *)
  clock : nat -> float;
  (** the outcome of the GET request for a URL *)
  respond : string -> exn + Response;
  (** whether opening a path for writing fails, and how *)
  open_error : string -> option exn;
  (** the exception, if any, with which the body stream breaks off once
      the chunks of the response have been yielded *)
  stream_error : option exn;
  (** whether the call of [file.write] made after [n] writes have
      returned fails, and how *)
  write_error : nat -> option exn;
  (** whether closing the file, which flushes it, fails, and how *)
  close_error : option exn
}.

(** ** Machine state *)

Record state := mkState {
  (* local variables of download_with_speed *)
  start_time : float;
  downloaded_bytes : Z;
  displayed_time : float;
  content_length : string;
  percent : string;
  size : Z;
  connection_pool_kw : gmap string (list sockopt);
  filename : string;
  (* the environment's side *)
  clock_calls : nat;
  trace : list event
}.

Definition set_start_time (v : float) (s : state) : state :=
  mkState v (downloaded_bytes s) (displayed_time s) (content_length s)
    (percent s) (size s) (connection_pool_kw s) (filename s)
    (clock_calls s) (trace s).
Definition set_downloaded_bytes (v : Z) (s : state) : state :=
  mkState (start_time s) v (displayed_time s) (content_length s)
    (percent s) (size s) (connection_pool_kw s) (filename s)
    (clock_calls s) (trace s).
Definition set_displayed_time (v : float) (s : state) : state :=
  mkState (start_time s) (downloaded_bytes s) v (content_length s)
    (percent s) (size s) (connection_pool_kw s) (filename s)
    (clock_calls s) (trace s).
Definition set_content_length (v : string) (s : state) : state :=
  mkState (start_time s) (downloaded_bytes s) (displayed_time s) v
    (percent s) (size s) (connection_pool_kw s) (filename s)
    (clock_calls s) (trace s).
Definition set_percent (v : string) (s : state) : state :=
  mkState (start_time s) (downloaded_bytes s) (displayed_time s)
    (content_length s) v (size s) (connection_pool_kw s) (filename s)
    (clock_calls s) (trace s).
Definition set_size (v : Z) (s : state) : state :=
  mkState (start_time s) (downloaded_bytes s) (displayed_time s)
    (content_length s) (percent s) v (connection_pool_kw s) (filename s)
    (clock_calls s) (trace s).
Definition set_connection_pool_kw (v : gmap string (list sockopt)) (s : state)
  : state :=
  mkState (start_time s) (downloaded_bytes s) (displayed_time s)
    (content_length s) (percent s) (size s) v (filename s)
    (clock_calls s) (trace s).
Definition set_filename (v : string) (s : state) : state :=
  mkState (start_time s) (downloaded_bytes s) (displayed_time s)
    (content_length s) (percent s) (size s) (connection_pool_kw s) v
    (clock_calls s) (trace s).
Definition set_clock_calls (v : nat) (s : state) : state :=
  mkState (start_time s) (downloaded_bytes s) (displayed_time s)
    (content_length s) (percent s) (size s) (connection_pool_kw s)
    (filename s) v (trace s).
Definition set_trace (v : list event) (s : state) : state :=
  mkState (start_time s) (downloaded_bytes s) (displayed_time s)
    (content_length s) (percent s) (size s) (connection_pool_kw s)
    (filename s) (clock_calls s) v.

(** The frame before the first statement has run: no variable is bound yet
    (the fields hold placeholders that are assigned before they are read),
    the clock has not been called and nothing has happened. *)
Definition fresh : state :=
  mkState 0 0 0 "" "" 0 ∅ "" 0 [].

(** ** A state and exception monad *)

Definition M (A : Type) : Type := state -> (exn + A) * state.

Definition ret {A} (a : A) : M A := fun s => (inr a, s).

Definition raise {A} (e : exn) : M A := fun s => (inl e, s).

Definition bind {A B} (m : M A) (f : A -> M B) : M B :=
  fun s =>
    match m s with
    | (inr a, s') => f a s'
    | (inl e, s') => (inl e, s')
    end.

Definition get : M state := fun s => (inr s, s).

Definition modify (f : state -> state) : M unit := fun s => (inr tt, f s).

Declare Scope py_scope.
Delimit Scope py_scope with py.
Notation "x <- m ;; k" := (bind m (fun x => k))
  (at level 100, m at next level, right associativity) : py_scope.
Notation "m ;; k" := (bind m (fun _ => k))
  (at level 100, right associativity) : py_scope.
Local Open Scope py_scope.

(** The state with one more event at the end of its trace. *)
Definition record (e : event) (s : state) : state :=
  set_trace (trace s ++ [e]) s.

Definition emit (e : event) : M unit := modify (record e).

(** [with ... :] — the body runs, then the resource is released whether the
    body returned or raised.  When the release itself raises, that
    exception goes on; otherwise an exception of the body does. *)
Definition with_ (release : event) (release_error : option exn)
    (body : M unit) : M unit :=
  fun s =>
    match body s with
    | (r, s') =>
        (match release_error with
         | Some e => inl e
         | None => r
         end,
         record release s')
    end.

(** [for x in xs: body] *)
Fixpoint for_ {X} (xs : list X) (body : X -> M unit) : M unit :=
  match xs with
  | [] => ret tt
  | x :: r => body x ;; for_ r body
  end.

(** [if c: body] *)
Definition when (c : bool) (body : M unit) : M unit :=
  if c then body else ret tt.

(** [x / y] for an [int] and a float: the [int] is made a float, and a
    divisor equal to zero, of either sign, raises [ZeroDivisionError]. *)
Definition truediv (x : Z) (y : float) : M float :=
  if (y =? 0)%float then raise ZeroDivisionError
  else ret (Py.float_of_int x / y)%float.

Definition int_ (s : string) : M Z :=
  match Py.int s with
  | Some n => ret n
  | None => raise ValueError
  end.

Definition print (text end_ : string) : M unit := emit (Print text end_).

(** The chunks handed to the calls of [file.write] that returned, in
    order. *)
Fixpoint written_chunks (tr : list event) : list Py.bytes :=
  match tr with
  | [] => []
  | Write chunk :: r => chunk :: written_chunks r
  | _ :: r => written_chunks r
  end.

(** ** The script *)

(** The text of the status line printed at line 60. *)
Definition progress_line (downloaded_bytes : Z) (content_length percent : string)
    (download_speed : float) : string :=
  "Downloaded: " +:+ Py.str downloaded_bytes +:+ content_length +:+ " bytes "
    +:+ percent +:+ "| Speed: " +:+ Py.format_f 9 2 download_speed
    +:+ " bytes/sec".

(** The text of the final status line printed at line 70. *)
Definition summary_line (downloaded_bytes : Z)
    (elapsed_time download_speed : float) : string :=
  Py.LF +:+ "Downloaded: " +:+ Py.str downloaded_bytes +:+ " bytes in "
    +:+ Py.format_f 0 2 elapsed_time +:+ " seconds| Speed: "
    +:+ Py.format_f 0 2 download_speed +:+ " bytes/sec".

(** The value of [percent] after lines 57 and 58. *)
Definition percent_text (downloaded_bytes size : Z) : string :=
  Py.format_f 3 0 (Py.int_truediv downloaded_bytes size * 100)%float +:+ "%".

(** [output or os.path.basename(url)] (line 44) *)
Definition destination (output : option string) (url : string) : string :=
  Py.or_ output (Py.basename url).

Section Program.

Variable w : World.

(** [time.time()] *)
Definition time_time : M float :=
  s <- get ;;
  let t := clock w (clock_calls s) in
  modify (set_clock_calls (S (clock_calls s))) ;;
  emit (Clock t) ;;
  ret t.

(** [manager.request(method, url, preload_content=False)] *)
Definition request (method url : string) : M Response :=
  s <- get ;;
  emit (Request method url (connection_pool_kw s)) ;;
  match respond w url with
  | inl e => raise e
  | inr r => ret r
  end.

(** [open(path, mode)] *)
Definition open_ (path mode : string) : M unit :=
  match open_error w path with
  | Some e => raise e
  | None => emit (OpenFile path mode)
  end.

(** [file.write(chunk)] *)
Definition file_write (chunk : Py.bytes) : M unit :=
  s <- get ;;
  match write_error w (length (written_chunks (trace s))) with
  | Some e => raise e
  | None => emit (Write chunk)
  end.

(** The end of [response.stream(1024)]: it stops, or breaks off. *)
Definition stream_end : M unit :=
  match stream_error w with
  | Some e => raise e
  | None => ret tt
  end.

(** Lines 55 to 61: the body of [if elapsed_time >= displayed_time]. *)
Definition show_status (elapsed_time : float) : M unit :=
  s <- get ;;
  when (0 <? size s)
    (modify (set_percent (percent_text (downloaded_bytes s) (size s)))) ;;
  s <- get ;;
  download_speed <- truediv (downloaded_bytes s) elapsed_time ;;
  print (progress_line (downloaded_bytes s) (content_length s) (percent s)
           download_speed) Py.CR ;;
  modify (set_displayed_time (elapsed_time + 0.5)%float).

(** Lines 52 to 64: the body of [for chunk in response.stream(1024)]. *)
Definition loop_body (chunk : Py.bytes) : M unit :=
  modify (fun s => set_downloaded_bytes (downloaded_bytes s + Py.len chunk) s) ;;
  now <- time_time ;;
  s <- get ;;
  let elapsed_time := (now - start_time s)%float in
  when (displayed_time s <=? elapsed_time)%float (show_status elapsed_time) ;;
  file_write chunk.

(** Lines 45 to 47. *)
Definition read_content_length (response : Response) : M unit :=
  when (Headers.contains "Content-Length" (headers response))
    (modify (set_content_length
               ("/" +:+ Headers.getitem "Content-Length" (headers response))) ;;
     n <- int_ (Headers.getitem "Content-Length" (headers response)) ;;
     modify (set_size n)).

(** Lines 68 to 71. *)
Definition final_status : M unit :=
  now <- time_time ;;
  s <- get ;;
  let elapsed_time := (now - start_time s)%float in
  download_speed <- truediv (downloaded_bytes s) elapsed_time ;;
  print (summary_line (downloaded_bytes s) elapsed_time download_speed) Py.LF ;;
  print ("File saved as: " +:+ filename s) Py.LF.

Definition download_with_speed (url : string) (custom_tos : option Z)
    (output : option string) : M unit :=
  now <- time_time ;;
  modify (set_start_time now) ;;
  modify (set_downloaded_bytes 0) ;;
  modify (set_displayed_time 0) ;;
  modify (set_content_length "") ;;
  modify (set_percent " ??%") ;;
  modify (set_size 0) ;;
  (* manager = urllib3.PoolManager() *)
  modify (set_connection_pool_kw ∅) ;;
  match custom_tos with
  | Some tos =>
      modify (fun s =>
        set_connection_pool_kw
          (<["socket_options" := [(IPPROTO_IP, IP_TOS, tos)]]>
             (connection_pool_kw s)) s)
  | None => ret tt
  end ;;
  response <- request "GET" url ;;
  with_ CloseResponse None
    (modify (set_filename (destination output url)) ;;
     read_content_length response ;;
     s <- get ;;
     open_ (filename s) "wb" ;;
     with_ CloseFile (close_error w)
       (for_ (chunks response) loop_body ;; stream_end)) ;;
  final_status.

(** A whole call, from the empty frame: how it ended and the last state. *)
Definition run (url : string) (custom_tos : option Z) (output : option string)
  : (exn + unit) * state :=
  download_with_speed url custom_tos output fresh.

End Program.

(** ** States a call goes through *)

(** [manager.connection_pool_kw] after lines 35 to 39. *)
Definition pool_kw (custom_tos : option Z) : gmap string (list sockopt) :=
  match custom_tos with
  | Some tos => <["socket_options" := [(IPPROTO_IP, IP_TOS, tos)]]> ∅
  | None => ∅
  end.

(** The state when [manager.request] has been called (line 42). *)
Definition at_request (w : World) (url : string) (custom_tos : option Z)
  : state :=
  mkState (clock w 0) 0 0 "" " ??%" 0 (pool_kw custom_tos) "" 1
    [Clock (clock w 0); Request "GET" url (pool_kw custom_tos)].

(** How the two [with] blocks end, given how the loop ended: the error
    of closing the file if there is one, else the exception of the loop,
    else that of the stream. *)
Definition loop_outcome (w : World) (r : exn + unit) : exn + unit :=
  match close_error w with
  | Some e => inl e
  | None =>
      match r with
      | inl e => inl e
      | inr _ =>
          match stream_error w with
          | Some e => inl e
          | None => inr tt
          end
      end
  end.

(** What [file.write(chunk)] does in the state [s]: how it ends, and the
    event it leaves. *)
Definition write_outcome (w : World) (s : state) (chunk : Py.bytes)
  : (exn + unit) * list event :=
  match write_error w (length (written_chunks (trace s))) with
  | Some e => (inl e, [])
  | None => (inr tt, [Write chunk])
  end.

(** ** What an observer sees in a trace *)

Definition is_CR (s : string) : bool := String.eqb s Py.CR.

(** The status lines: the texts printed with [end='\r']. *)
Fixpoint progress_lines (tr : list event) : list string :=
  match tr with
  | [] => []
  | Print text end_ :: r =>
      if is_CR end_ then text :: progress_lines r else progress_lines r
  | _ :: r => progress_lines r
  end.

(** The bytes handed to the calls of [file.write] that returned. *)
Fixpoint file_content (tr : list event) : Py.bytes :=
  match tr with
  | [] => []
  | Write chunk :: r => chunk ++ file_content r
  | _ :: r => file_content r
  end.

(** The elapsed time (latest clock reading minus [start], as the script
    computes it) at which each status line was printed; [last] is the
    latest reading so far. *)
Fixpoint progress_times (start last : float) (tr : list event) : list float :=
  match tr with
  | [] => []
  | Clock t :: r => progress_times start t r
  | Print _ end_ :: r =>
      if is_CR end_ then (last - start)%float :: progress_times start last r
      else progress_times start last r
  | _ :: r => progress_times start last r
  end.

(** The latest clock reading after the events of [tr]. *)
Fixpoint last_reading (last : float) (tr : list event) : float :=
  match tr with
  | [] => last
  | Clock t :: r => last_reading t r
  | _ :: r => last_reading last r
  end.

(** The same for the trace of a whole call, whose first event is the clock
    reading that becomes [start_time]. *)
Definition display_times (tr : list event) : list float :=
  match tr with
  | Clock t0 :: r => progress_times t0 t0 r
  | _ => []
  end.

(** [sum(len(c) for c in cs)] *)
Definition total_len (cs : list Py.bytes) : Z :=
  foldr (fun c n => Py.len c + n) 0 cs.

(** ** The URL path as the specification speaks of it

    The specification names "a URL with path [.../name.ext]".  The two
    definitions below follow those words (RFC 3986: the path is what lies
    between the authority and the first [?] or [#]); the script itself
    never parses the URL, see [destination]. *)

Fixpoint spec_before (stop : ascii -> bool) (s : string) : string :=
  match s with
  | "" => ""
  | String c r => if stop c then "" else String c (spec_before stop r)
  end.

Fixpoint spec_from (start : ascii -> bool) (s : string) : string :=
  match s with
  | "" => ""
  | String c r => if start c then s else spec_from start r
  end.

Definition spec_url_path (url : string) : string :=
  let hier :=
    spec_before (fun a => Ascii.eqb a "?"%char || Ascii.eqb a "#"%char) url in
  match spec_from (Ascii.eqb ":"%char) hier with
  | String _ (String "/" (String "/" rest)) => spec_from (Ascii.eqb "/"%char) rest
  | String _ rest => rest
  | "" => hier
  end.

Definition spec_last_path_component (url : string) : string :=
  Py.basename (spec_url_path url).

(** ** Example environments *)

(** A chunk of [n] zero bytes. *)
Definition zeros (n : nat) : Py.bytes := repeat Byte.x00 n.

(** An environment whose [n]-th clock reading is [t0 + n * dt], whose
    server answers every request with [response], and in which every file
    can be opened, written and closed and no stream breaks off. *)
Definition steady_world (t0 dt : float) (response : Response) : World :=
  mkWorld (fun n => t0 + Py.float_of_int (Z.of_nat n) * dt)%float
    (fun _ => inr response) (fun _ => None) None (fun _ => None) None.

(** An environment with the clock readings of a list (the last one for
    good), otherwise like [steady_world]. *)
Definition listed_world (readings : list float) (response : Response)
  : World :=
  mkWorld (fun n => nth n readings (List.last readings 0%float))
    (fun _ => inr response) (fun _ => None) None (fun _ => None) None.

(** An empty body, with no declared length. *)
Definition empty_response : Response := mkResponse [] [].

(** 1000 bytes in four chunks, with the length declared. *)
Definition kilobyte_response : Response :=
  mkResponse [("Content-Length", "1000")]
    [zeros 250; zeros 250; zeros 250; zeros 250].

(** ** Predicates used in the statements *)

(** Whether the character [c] occurs in [s]. *)
Fixpoint occurs (c : ascii) (s : string) : bool :=
  match s with
  | "" => false
  | String a r => Ascii.eqb a c || occurs c r
  end.

(** [spaced tick l]: the first time of [l] is at or after [tick], and each
    later one is at or after the float sum of the one before it and 0.5,
    as the script compares them. *)
Fixpoint spaced (tick : float) (l : list float) : Prop :=
  match l with
  | [] => True
  | e :: r => (tick <=? e)%float = true /\ spaced (e + 0.5)%float r
  end.

(** The text of a status line with a byte count, the [content_length]
    suffix and the [percent] field, whatever the speed shown. *)
Definition status_shows (content_length percent : string) (line : string) : Prop :=
  exists (downloaded_bytes : Z) (speed : string),
    line = "Downloaded: " +:+ Py.str downloaded_bytes +:+ content_length
           +:+ " bytes " +:+ percent +:+ "| Speed: " +:+ speed
           +:+ " bytes/sec".

(** The text of a status line with a byte count, the [content_length]
    suffix and, as its percentage, that count divided by [n], times one
    hundred, with no decimals in a field of three characters. *)
Definition status_shows_share (content_length : string) (n : Z)
    (line : string) : Prop :=
  exists (count : Z) (speed : string),
    line = "Downloaded: " +:+ Py.str count +:+ content_length +:+ " bytes "
           +:+ (Py.format_f 3 0 (Py.int_truediv count n * 100)%float +:+ "%")
           +:+ "| Speed: " +:+ speed +:+ " bytes/sec".

(** The invariant of the loop for the display tick: the trace starts with
    the reading that became [start_time], the display times are spaced,
    and a status line printed at any time from [displayed_time] on keeps
    them spaced. *)
Definition tick_inv (s : state) : Prop :=
  (exists r, trace s = Clock (start_time s) :: r)
  /\ spaced 0 (display_times (trace s))
  /\ forall e, (displayed_time s <=? e)%float = true ->
       spaced 0 (display_times (trace s) ++ [e]).

(** The events of one iteration in the order the specification lists
    them: the write, then the clock reading, then the status line if one
    is due. *)
Definition spec_iteration_order (chunk : Py.bytes) (evs : list event) : Prop :=
  exists t,
    evs = [Write chunk; Clock t]
    \/ exists line, evs = [Write chunk; Clock t; Print line Py.CR].

(** The order the loop body has (lines 52 to 64): the clock reading, the
    status line if one is due, then the write. *)
Definition iteration_order (chunk : Py.bytes) (evs : list event) : Prop :=
  exists t,
    evs = [Clock t; Write chunk]
    \/ exists line, evs = [Clock t; Print line Py.CR; Write chunk].

(** An environment in which no request succeeds. *)
Definition unreachable_world : World :=
  mkWorld (fun _ => 1700000000%float) (fun _ => inl MaxRetryError)
    (fun _ => None) None (fun _ => None) None.

(** A response whose declared length is not a number. *)
Definition bad_length_response : Response :=
  mkResponse [("Content-Length", "many")] [zeros 2].

(** A response whose declared length ends in the unit separator 0x1f,
    which [str.strip] removes and [int] does not accept. *)
Definition unit_separator_response : Response :=
  mkResponse [("Content-Length", "12" +:+ String "031" "")] [zeros 12].

(** An environment like [steady_world] in which no file can be opened
    (errno 13, permission denied). *)
Definition readonly_world (t0 dt : float) (response : Response) : World :=
  mkWorld (clock (steady_world t0 dt response)) (fun _ => inr response)
    (fun _ => Some (OSError 13)) None (fun _ => None) None.

(** An environment like [steady_world] on a full disk (errno 28): the
    writes are taken, and closing the file, which flushes them, fails. *)
Definition full_disk_world (t0 dt : float) (response : Response) : World :=
  mkWorld (clock (steady_world t0 dt response)) (fun _ => inr response)
    (fun _ => None) None (fun _ => None) (Some (OSError 28)).

(** An environment like [steady_world] whose body stream breaks off after
    the chunks of the response. *)
Definition broken_stream_world (t0 dt : float) (response : Response) : World :=
  mkWorld (clock (steady_world t0 dt response)) (fun _ => inr response)
    (fun _ => None) (Some ProtocolError) (fun _ => None) None.

(** The readings of the clock in a trace, in order. *)
Fixpoint clock_readings (tr : list event) : list float :=
  match tr with
  | [] => []
  | Clock t :: r => t :: clock_readings r
  | _ :: r => clock_readings r
  end.

(** The readings in the trace are the first [clock_calls] readings of the
    environment. *)
Definition readings_inv (w : World) (s : state) : Prop :=
  clock_readings (trace s) = clock w <$> seq 0 (clock_calls s).

(** An event the loop can produce: a clock reading, a write or a status
    line. *)
Definition is_loop_event (e : event) : bool :=
  match e with
  | Clock _ | Write _ => true
  | Print _ end_ => is_CR end_
  | _ => false
  end.

(** An event of the final status: a clock reading or a line that ends in a
    newline. *)
Definition is_final_event (e : event) : bool :=
  match e with
  | Clock _ => true
  | Print _ end_ => String.eqb end_ Py.LF
  | _ => false
  end.

(** * Theorems *)

(** ** Sanity checks of the runtime model *)

Example str_250 : Py.str 250 = "250".
Proof. reflexivity. Qed.

(** [int()] takes a sign, underscores between digits and white space
    around the number; the characters 0x1c to 0x1f are not white space for
    it, 0x85 and 0xa0 are. *)
Example int_ok : Py.int " 1_000 " = Some 1000 /\ Py.int "-7" = Some (-7)
  /\ Py.int "0" = Some 0 /\ Py.int "" = None /\ Py.int "1__0" = None
  /\ Py.int "12a" = None /\ Py.int "007" = Some 7 /\ Py.int "+5" = Some 5
  /\ Py.int "- 5" = None /\ Py.int "_1" = None /\ Py.int "1_" = None
  /\ Py.int ("12" +:+ String "031" "") = None
  /\ Py.int (String "028" "12") = None
  /\ Py.int ("12" +:+ String "160" "") = Some 12
  /\ Py.int (String "133" " 12") = Some 12
  /\ Py.int ("12" +:+ String "011" "") = Some 12
  /\ Py.int ("12" +:+ String "000" "") = None.
Proof. repeat split; reflexivity. Qed.

(** [int()] refuses more than 4300 digits, leading zeros included. *)
Example int_cap :
  Py.int (string_of_list_ascii (repeat "9"%char 4300)) <> None
  /\ Py.int (string_of_list_ascii (repeat "9"%char 4301)) = None
  /\ Py.int (string_of_list_ascii (repeat "0"%char 4300) +:+ "1") = None
  /\ Py.int (string_of_list_ascii (repeat "0"%char 4299) +:+ "1") = Some 1.
Proof. repeat split; vm_compute; congruence. Qed.

(** Floats are formatted from their exact value, ties to even. *)
Example format_f_ok :
  Py.format_f 9 2 (Py.float_of_int 1024 / 3) = "   341.33"
  /\ Py.format_f 3 0 25 = " 25" /\ Py.format_f 0 2 0.125 = "0.12"
  /\ Py.format_f 3 0 2.5 = "  2" /\ Py.format_f 3 0 3.5 = "  4"
  /\ Py.format_f 0 2 (-0.5) = "-0.50" /\ Py.format_f 3 0 100 = "100"
  /\ Py.format_f 0 2 1234.5 = "1234.50"
  /\ Py.format_f 9 2 (Py.float_of_int 1 / 40) = "     0.03"
  /\ Py.format_f 3 0 (Py.int_truediv 23 40 * 100) = " 57"
  /\ Py.format_f 0 2 (Py.float_of_int 0 / (-0.25)) = "-0.00"
  /\ Py.format_f 9 2 infinity = "      inf" /\ Py.format_f 0 2 nan = "nan".
Proof. repeat split; vm_compute; reflexivity. Qed.

Example basename_ok :
  Py.basename "http://example.com/pub/name.ext" = "name.ext"
  /\ Py.basename "http://example.com/pub/" = ""
  /\ Py.basename "name.ext" = "name.ext".
Proof. repeat split; reflexivity. Qed.

(** A whole call: 1000 bytes in four chunks that arrive 0.25 s apart, with
    the marking 16.  Status lines are due at 0.25 s and 0.75 s. *)
Example run_kilobyte :
  let r := run (steady_world 1700000000 0.25 kilobyte_response)
             "http://example.com/pub/name.ext" (Some 16) (Some "out.bin") in
  fst r = inr tt
  /\ progress_lines (trace (snd r))
     = ["Downloaded: 250/1000 bytes  25%| Speed:   1000.00 bytes/sec";
        "Downloaded: 750/1000 bytes  75%| Speed:   1000.00 bytes/sec"]
  /\ file_content (trace (snd r)) = zeros 1000
  /\ last (trace (snd r)) = Some (Print "File saved as: out.bin" Py.LF)
  /\ trace (snd r) !! 1%nat
     = Some (Request "GET" "http://example.com/pub/name.ext"
               (pool_kw (Some 16)))
  /\ trace (snd r) !! 2%nat = Some (OpenFile "out.bin" "wb").
Proof. repeat split; vm_compute; reflexivity. Qed.

(** On a full disk the call raises the error of closing the file, after
    the loop has gone through the body, and prints no summary. *)
Example run_full_disk :
  let r := run (full_disk_world 1700000000 0.25 kilobyte_response)
             "http://example.com/pub/name.ext" None None in
  fst r = inl (OSError 28)
  /\ last (trace (snd r)) = Some CloseResponse
  /\ downloaded_bytes (snd r) = 1000.
Proof. repeat split; vm_compute; reflexivity. Qed.

(** When the stream breaks off after two chunks, both have been written,
    the file is closed, the response released and the error goes on. *)
Example run_broken_stream :
  let r := run (broken_stream_world 1700000000 0.25
                  (mkResponse [] [zeros 3; zeros 2]))
             "http://example.com/a" None None in
  fst r = inl ProtocolError
  /\ written_chunks (trace (snd r)) = [zeros 3; zeros 2]
  /\ drop (length (trace (snd r)) - 2) (trace (snd r))
     = [CloseFile; CloseResponse].
Proof. repeat split; vm_compute; reflexivity. Qed.

(** ** Observers and appended traces *)

Lemma progress_lines_app (a b : list event) :
  progress_lines (a ++ b) = progress_lines a ++ progress_lines b.
Proof.
  induction a as [|e a IH]; [reflexivity|].
  destruct e; cbn; try exact IH.
  destruct (is_CR end_); cbn; by rewrite IH.
Qed.

Lemma written_chunks_app (a b : list event) :
  written_chunks (a ++ b) = written_chunks a ++ written_chunks b.
Proof.
  induction a as [|e a IH]; [reflexivity|].
  destruct e; cbn; try exact IH. by rewrite IH.
Qed.

Lemma file_content_app (a b : list event) :
  file_content (a ++ b) = file_content a ++ file_content b.
Proof.
  induction a as [|e a IH]; [reflexivity|].
  destruct e; cbn; try exact IH. by rewrite IH, app_assoc.
Qed.

Lemma file_content_written (tr : list event) :
  file_content tr = concat (written_chunks tr).
Proof.
  induction tr as [|e tr IH]; [reflexivity|].
  destruct e; cbn; try exact IH. by rewrite IH.
Qed.

Lemma total_len_concat (cs : list Py.bytes) :
  total_len cs = Py.len (concat cs).
Proof.
  unfold Py.len. induction cs as [|c cs IH]; [reflexivity|].
  cbn [total_len foldr concat]. fold (total_len cs).
  rewrite IH. unfold Py.len. rewrite length_app. lia.
Qed.

(** ** The loop *)

Lemma for_cons {X} (x : X) (xs : list X) (body : X -> M unit) (s : state) :
  for_ (x :: xs) body s =
  match body x s with
  | (inr _, s') => for_ xs body s'
  | (inl e, s') => (inl e, s')
  end.
Proof. reflexivity. Qed.

(** A property of the state kept by every iteration is kept by the loop,
    whether it ends normally or with an exception. *)
Lemma for_preserves {X} (I : state -> Prop) (body : X -> M unit) :
  (forall x s, I s -> I (snd (body x s))) ->
  forall xs s, I s -> I (snd (for_ xs body s)).
Proof.
  intros Hbody xs. induction xs as [|x xs IH]; intros s Hs; [exact Hs|].
  rewrite for_cons. specialize (Hbody x s Hs).
  destruct (body x s) as [[e|[]] s1]; cbn in *; auto.
Qed.

(** A write either returns and leaves its event, or raises what the
    environment says and leaves none. *)
Lemma write_outcome_cases (w : World) (s : state) (chunk : Py.bytes) :
  (write_error w (length (written_chunks (trace s))) = None
   /\ write_outcome w s chunk = (inr tt, [Write chunk]))
  \/ exists e,
       write_error w (length (written_chunks (trace s))) = Some e
       /\ write_outcome w s chunk = (inl e, []).
Proof.
  unfold write_outcome.
  destruct (write_error w _) as [e|]; [right; by exists e|by left].
Qed.

(** Everything one iteration does, in its three outcomes: no status line
    is due; one is due and the division fails; one is due and is printed.
    In the first and the last the iteration ends as the write does. *)
Lemma loop_body_spec (w : World) (chunk : Py.bytes) (s : state) :
  let t := clock w (clock_calls s) in
  let e := (t - start_time s)%float in
  let db := downloaded_bytes s + Py.len chunk in
  let r := loop_body w chunk s in
  let s' := snd r in
  let wo := write_outcome w s chunk in
  (start_time s' = start_time s /\ size s' = size s
   /\ content_length s' = content_length s /\ filename s' = filename s
   /\ connection_pool_kw s' = connection_pool_kw s
   /\ clock_calls s' = S (clock_calls s) /\ downloaded_bytes s' = db)
  /\ (((displayed_time s <=? e)%float = false /\ fst r = fst wo
       /\ trace s' = trace s ++ Clock t :: snd wo
       /\ displayed_time s' = displayed_time s /\ percent s' = percent s)
      \/ ((displayed_time s <=? e)%float = true /\ (e =? 0)%float = true
          /\ fst r = inl ZeroDivisionError
          /\ percent s' =
               (if 0 <? size s then percent_text db (size s) else percent s)
          /\ trace s' = trace s ++ [Clock t]
          /\ displayed_time s' = displayed_time s)
      \/ ((displayed_time s <=? e)%float = true /\ (e =? 0)%float = false
          /\ fst r = fst wo
          /\ percent s' =
               (if 0 <? size s then percent_text db (size s) else percent s)
          /\ trace s' =
               trace s ++
                 Clock t
                 :: Print (progress_line db (content_length s) (percent s')
                             (Py.float_of_int db / e)) Py.CR
                 :: snd wo
          /\ displayed_time s' = (e + 0.5)%float)).
Proof.
  intros t e db r s' wo. subst r s' wo t e db.
  unfold loop_body, show_status, time_time, file_write, print, emit, truediv,
    when, bind, get, modify, ret, raise, write_outcome. cbn.
  destruct (PrimFloat.leb _ _) eqn:Hdue; cbn;
    [destruct (0 <? size s) eqn:Hsize; cbn;
     destruct (PrimFloat.eqb _ _) eqn:Hzero; cbn|];
    rewrite ?written_chunks_app; cbn [written_chunks]; rewrite ?app_nil_r;
    try destruct (write_error w _) as [ew|]; cbn;
    rewrite <- ?app_assoc; cbn;
    (split; [repeat split; reflexivity|]);
    first [ left; repeat split; reflexivity
          | right; left; repeat split; reflexivity
          | right; right; repeat split; reflexivity ].
Qed.

(** The cases of one iteration, with the two outcomes of the write told
    apart. *)
Ltac body_cases w c s :=
  let H := fresh "H" in
  destruct (loop_body_spec w c s) as [Hframe H]; cbn zeta in Hframe, H;
  destruct (write_outcome_cases w s c) as [[Hwerr Hwo]|(ew & Hwerr & Hwo)];
  rewrite Hwo in H; cbn [fst snd] in H;
  destruct H as [(Hdue & Hok & Htr & Hd & Hp)
                |[(Hdue & Hzero & Hok & Hp & Htr & Hd)
                 |(Hdue & Hzero & Hok & Hp & Htr & Hd)]].

Lemma len_nonneg (chunk : Py.bytes) : 0 <= Py.len chunk.
Proof. unfold Py.len. lia. Qed.

Lemma loop_body_counter (w : World) (chunk : Py.bytes) (s : state) :
  downloaded_bytes (snd (loop_body w chunk s)) = downloaded_bytes s + Py.len chunk.
Proof. apply (loop_body_spec w chunk s). Qed.

Lemma loop_counter_lower (w : World) (cs : list Py.bytes) (s : state) :
  downloaded_bytes s <= downloaded_bytes (snd (for_ cs (loop_body w) s)).
Proof.
  apply (for_preserves (fun s' => downloaded_bytes s <= downloaded_bytes s'));
    [|lia].
  intros x s1 Hs1. rewrite loop_body_counter. pose proof (len_nonneg x). lia.
Qed.

(** The loop over [cs1 ++ cs2] goes through the state the loop over [cs1]
    ends in, and stops there if that one raised. *)
Lemma for_app {X} (xs ys : list X) (body : X -> M unit) (s : state) :
  for_ (xs ++ ys) body s =
  match for_ xs body s with
  | (inr _, s') => for_ ys body s'
  | (inl e, s') => (inl e, s')
  end.
Proof.
  revert s. induction xs as [|x xs IH]; intros s; [reflexivity|].
  cbn [app]. rewrite !for_cons.
  destruct (body x s) as [[e|[]] s1]; [reflexivity|apply IH].
Qed.

(** An iteration that returns has written its chunk. *)
Lemma loop_body_written (w : World) (c : Py.bytes) (s s1 : state) :
  loop_body w c s = (inr tt, s1) ->
  written_chunks (trace s1) = written_chunks (trace s) ++ [c].
Proof.
  intros Hbody. body_cases w c s; rewrite Hbody in *; cbn [fst snd] in *;
    try discriminate; by rewrite Htr, written_chunks_app.
Qed.

(** When the loop ends normally, every chunk was counted and written. *)
Lemma loop_finished (w : World) (cs : list Py.bytes) (s s' : state) :
  for_ cs (loop_body w) s = (inr tt, s') ->
  downloaded_bytes s' = downloaded_bytes s + total_len cs
  /\ written_chunks (trace s') = written_chunks (trace s) ++ cs.
Proof.
  revert s. induction cs as [|c cs IH]; intros s.
  - cbn. intros [= <-]. rewrite app_nil_r. split; [lia|reflexivity].
  - rewrite for_cons.
    pose proof (loop_body_counter w c s) as Hdb1.
    pose proof (loop_body_written w c s) as Hwr1.
    destruct (loop_body w c s) as [[e|[]] s1]; [discriminate|].
    cbn [fst snd] in *. intros Hrest. apply IH in Hrest as [Hdb Hwr].
    split.
    + rewrite Hdb, Hdb1. cbn [total_len foldr]. fold (total_len cs). lia.
    + rewrite Hwr, (Hwr1 s1 eq_refl). by rewrite <- app_assoc.
Qed.

(** The loop leaves the variables it does not assign alone. *)
Lemma loop_frame (w : World) (cs : list Py.bytes) (s : state) :
  let s' := snd (for_ cs (loop_body w) s) in
  start_time s' = start_time s /\ size s' = size s
  /\ content_length s' = content_length s /\ filename s' = filename s
  /\ connection_pool_kw s' = connection_pool_kw s.
Proof.
  apply (for_preserves (fun s' =>
    start_time s' = start_time s /\ size s' = size s
    /\ content_length s' = content_length s /\ filename s' = filename s
    /\ connection_pool_kw s' = connection_pool_kw s)); [|done].
  intros x s1 (H1 & H2 & H3 & H4 & H5).
  destruct (loop_body_spec w x s1) as [(F1 & F2 & F3 & F4 & F5 & _) _].
  repeat split; congruence.
Qed.

(** While [size] is not positive, [percent] keeps its value and every
    status line shows it. *)
Lemma loop_percent_unknown (w : World) (cs : list Py.bytes) (cl p : string)
    (s : state) :
  size s <= 0 -> content_length s = cl -> percent s = p ->
  Forall (status_shows cl p) (progress_lines (trace s)) ->
  Forall (status_shows cl p)
    (progress_lines (trace (snd (for_ cs (loop_body w) s)))).
Proof.
  intros Hsize Hcl Hp Htr.
  apply (for_preserves (fun s' =>
    size s' <= 0 /\ content_length s' = cl /\ percent s' = p
    /\ Forall (status_shows cl p) (progress_lines (trace s'))) (loop_body w));
    [|done].
  clear. intros x s (Hsize & Hcl & Hp0 & Hlines).
  body_cases w x s; destruct Hframe as (_ & F2 & F3 & _); rewrite F2, F3.
  all: assert (percent (snd (loop_body w x s)) = p) as Hp'
         by (rewrite Hp; try destruct (0 <? size s) eqn:E; first [lia|done]).
  all: (split; [done|]); (split; [done|]); (split; [done|]).
  all: rewrite Htr, progress_lines_app; cbn [progress_lines];
    change (is_CR Py.CR) with true; cbn iota; rewrite ?app_nil_r; try done.
  all: apply Forall_app; (split; [done|]).
  all: constructor; [|constructor].
  all: rewrite Hp', Hcl; eexists _, _; reflexivity.
Qed.

(** ** Times of the status lines *)

Lemma progress_times_app (start last : float) (a b : list event) :
  progress_times start last (a ++ b) =
  progress_times start last a ++ progress_times start (last_reading last a) b.
Proof.
  revert last. induction a as [|e a IH]; intros last; [reflexivity|].
  destruct e; cbn; try apply IH.
  destruct (is_CR end_); cbn; by rewrite IH.
Qed.

Lemma display_times_app (t0 : float) (r b : list event) :
  display_times ((Clock t0 :: r) ++ b) =
  display_times (Clock t0 :: r) ++ progress_times t0 (last_reading t0 r) b.
Proof. cbn. apply progress_times_app. Qed.

Lemma spaced_snoc (t e0 e : float) (l : list float) :
  spaced t (l ++ [e0]) -> (e0 + 0.5 <=? e)%float = true ->
  spaced t ((l ++ [e0]) ++ [e]).
Proof.
  revert t. induction l as [|a l IH]; intros t; cbn.
  - intros [H0 _] He. done.
  - intros [Ha Hl] He. split; [done|]. by apply IH.
Qed.

(** In a spaced list, the time of each line but the first is at or after
    the float sum of the time before it and 0.5. *)
Lemma spaced_lookup (t : float) (l : list float) (i : nat) (e1 e2 : float) :
  spaced t l -> l !! i = Some e1 -> l !! S i = Some e2 ->
  (e1 + 0.5 <=? e2)%float = true.
Proof.
  revert t i. induction l as [|a l IH]; intros t i; [done|].
  cbn [spaced]. intros [Ha Hl]. destruct i as [|i]; cbn.
  - intros [= ->]. destruct l as [|b l]; [done|]. cbn. intros [= ->].
    apply Hl.
  - apply IH with (t := (a + 0.5)%float). exact Hl.
Qed.

Lemma loop_body_tick_inv (w : World) (chunk : Py.bytes) (s : state) :
  tick_inv s -> tick_inv (snd (loop_body w chunk s)).
Proof.
  intros ([r Hr] & Hsp & Htick).
  body_cases w chunk s; destruct Hframe as (F1 & _);
    unfold tick_inv; rewrite F1, Htr, Hd, Hr;
    (split; [by eexists|]);
    rewrite display_times_app; cbn [progress_times];
    change (is_CR Py.CR) with true; cbn iota; rewrite ?app_nil_r;
    rewrite <- Hr.
  all: try (split; [exact Hsp|exact Htick]).
  all: split; [by apply Htick|].
  all: intros e' He'; apply spaced_snoc; [by apply Htick|exact He'].
Qed.

Lemma loop_tick_inv (w : World) (cs : list Py.bytes) (s : state) :
  tick_inv s -> tick_inv (snd (for_ cs (loop_body w) s)).
Proof. apply (for_preserves tick_inv). intros x s1. apply loop_body_tick_inv. Qed.

(** ** The structure of a call *)

Lemma read_content_length_spec (response : Response) (s : state) :
  read_content_length response s =
  if Headers.contains "Content-Length" (headers response) then
    let v := Headers.getitem "Content-Length" (headers response) in
    match Py.int v with
    | Some n => (inr tt, set_size n (set_content_length ("/" +:+ v) s))
    | None => (inl ValueError, set_content_length ("/" +:+ v) s)
    end
  else (inr tt, s).
Proof.
  unfold read_content_length, when, int_, bind, modify, ret, raise.
  destruct (Headers.contains _ _); [|reflexivity]. cbn.
  destruct (Py.int _); reflexivity.
Qed.

Lemma final_status_spec (w : World) (s : state) :
  let t := clock w (clock_calls s) in
  let e := (t - start_time s)%float in
  let s1 := record (Clock t) (set_clock_calls (S (clock_calls s)) s) in
  final_status w s =
  if (e =? 0)%float then (inl ZeroDivisionError, s1)
  else (inr tt,
        record (Print ("File saved as: " +:+ filename s) Py.LF)
          (record (Print (summary_line (downloaded_bytes s) e
                            (Py.float_of_int (downloaded_bytes s) / e)) Py.LF)
             s1)).
Proof.
  cbn zeta.
  unfold final_status, time_time, print, emit, truediv, bind, get, modify, ret,
    raise. cbn.
  destruct (PrimFloat.eqb _ _); reflexivity.
Qed.

(** The two [with] blocks end normally only when the loop did, the stream
    ended and the file was closed without an error. *)
Lemma loop_outcome_ok (w : World) (r : exn + unit) :
  loop_outcome w r = inr tt ->
  r = inr tt /\ close_error w = None /\ stream_error w = None.
Proof.
  unfold loop_outcome.
  destruct (close_error w); [discriminate|].
  destruct r as [e|[]]; [discriminate|].
  destruct (stream_error w); [discriminate|]. done.
Qed.


(** A call, phase by phase: the request, the header, the opening of the
    file, the loop, the two releases and the final status. *)
Lemma run_spec (w : World) (url : string) (custom_tos : option Z)
    (output : option string) :
  run w url custom_tos output =
  match respond w url with
  | inl e => (inl e, at_request w url custom_tos)
  | inr response =>
      match read_content_length response
              (set_filename (destination output url)
                 (at_request w url custom_tos)) with
      | (inl e, s2) => (inl e, record CloseResponse s2)
      | (inr _, s2) =>
          match open_error w (destination output url) with
          | Some e => (inl e, record CloseResponse s2)
          | None =>
              match for_ (chunks response) (loop_body w)
                      (record (OpenFile (destination output url) "wb") s2) with
              | (r, s4) =>
                  match loop_outcome w r with
                  | inl e =>
                      (inl e, record CloseResponse (record CloseFile s4))
                  | inr _ =>
                      final_status w
                        (record CloseResponse (record CloseFile s4))
                  end
              end
          end
      end
  end.
Proof.
  unfold run, download_with_speed.
  unfold time_time, request, with_, open_, stream_end, loop_outcome, bind, get,
    modify, emit, ret, raise.
  cbn.
  destruct custom_tos as [tos|]; cbn;
    (destruct (respond w url) as [e|response]; cbn; [reflexivity|]);
    rewrite !read_content_length_spec;
    (destruct (Headers.contains _ _); cbn;
     [destruct (Py.int _); cbn; [|reflexivity]|]);
    (destruct (open_error w _); cbn; [reflexivity|]);
    match goal with
    | |- _ = match for_ ?cs ?b ?s with _ => _ end =>
        match goal with
        | |- context [for_ cs b ?s1] =>
            change s1 with s; destruct (for_ cs b s) as [[e|[]] s4]
        end
    end; cbn;
    destruct (close_error w); cbn; try reflexivity;
    destruct (stream_error w); reflexivity.
Qed.

(** Case analysis of a call along [run_spec], phase by phase.  The loop
    ends in the state [s4] with the outcome [r4] ([Hloop]); when the two
    [with] blocks raise, [Houtcome] says so; when they do not, the loop
    returned, [Hclose] and [Hstream] say that neither the closing of the
    file nor the stream failed, and [Hzero] says whether the final elapsed
    time is zero. *)
Ltac case_respond :=
  try match goal with
  | |- context [respond ?w ?url] =>
      destruct (respond w url) as [?|?response] eqn:?Hrespond
  end.

Ltac case_header :=
  rewrite ?read_content_length_spec;
  try match goal with
  | |- context [if Headers.contains ?n ?h then _ else _] =>
      destruct (Headers.contains n h) eqn:?Hcontains
  end;
  cbn zeta;
  try match goal with
  | |- context [match Py.int ?v with _ => _ end] =>
      destruct (Py.int v) eqn:?Hint
  end.

Ltac case_open :=
  try match goal with
  | |- context [open_error ?w ?f] => destruct (open_error w f) eqn:?Hopen
  end.

Ltac case_loop :=
  try match goal with
  | |- context [for_ ?cs ?b ?s] =>
      destruct (for_ cs b s) as [r4 s4] eqn:Hloop;
      match goal with
      | |- context [loop_outcome ?w0 r4] =>
          destruct (loop_outcome w0 r4) as [?|[]] eqn:Houtcome;
          [|apply loop_outcome_ok in Houtcome as (-> & Hclose & Hstream);
            rewrite final_status_spec; cbn zeta;
            match goal with
            | |- context [PrimFloat.eqb ?e ?z] =>
                destruct (PrimFloat.eqb e z) eqn:Hzero
            end]
      end
  end.

Ltac run_cases :=
  rewrite run_spec; case_respond; case_header; case_open; case_loop.

(** The loop only appends clock readings, status lines and writes. *)
Lemma loop_trace_Forall (w : World) (P : event -> Prop) :
  (forall t, P (Clock t)) -> (forall c, P (Write c)) ->
  (forall line, P (Print line Py.CR)) ->
  forall cs s, Forall P (trace s) ->
    Forall P (trace (snd (for_ cs (loop_body w) s))).
Proof.
  intros Hclock Hwrite Hprint cs s0 Hs0.
  apply (for_preserves (fun s' => Forall P (trace s'))); [|done].
  intros x s Hs.
  body_cases w x s; rewrite Htr; apply Forall_app; (split; [done|]);
    repeat constructor; auto.
Qed.

(** The events a call can produce. *)
Lemma run_trace_Forall (w : World) (url : string) (custom_tos : option Z)
    (output : option string) (P : event -> Prop) :
  (forall t, P (Clock t)) -> (forall c, P (Write c)) ->
  (forall line end_, P (Print line end_)) ->
  P (Request "GET" url (pool_kw custom_tos)) ->
  P (OpenFile (destination output url) "wb") ->
  P CloseFile -> P CloseResponse ->
  Forall P (trace (snd (run w url custom_tos output))).
Proof.
  intros Hclock Hwrite Hprint Hreq Hopen Hcf Hcr.
  assert (forall cs s, Forall P (trace s) ->
            Forall P (trace (snd (for_ cs (loop_body w) s)))) as Hfor.
  { apply loop_trace_Forall; auto. }
  run_cases; cbn [snd];
    try (match type of Hloop with
         | for_ ?cs ?b ?s = _ =>
             assert (Forall P (trace s)) as Hentry
               by (cbn; repeat constructor; auto);
             apply (Hfor cs) in Hentry; rewrite Hloop in Hentry;
             cbn [snd] in Hentry
         end);
    cbn; rewrite ?Forall_app; repeat split; repeat constructor; auto.
Qed.

(** The loop only appends to the trace. *)
Lemma loop_trace_grows (w : World) (cs : list Py.bytes) (s : state) :
  exists evs, trace (snd (for_ cs (loop_body w) s)) = trace s ++ evs.
Proof.
  apply (for_preserves (fun s' => exists evs, trace s' = trace s ++ evs));
    [|by exists []; rewrite app_nil_r].
  intros x s1 [evs Hevs].
  body_cases w x s1; rewrite Htr, Hevs, <- app_assoc; by eexists.
Qed.

(** What a call leaves in the variables it assigns once, and how its trace
    begins. *)
Lemma run_frame (w : World) (url : string) (custom_tos : option Z)
    (output : option string) :
  let s' := snd (run w url custom_tos output) in
  start_time s' = clock w 0
  /\ connection_pool_kw s' = pool_kw custom_tos
  /\ exists rest,
       trace s' =
       Clock (clock w 0) :: Request "GET" url (pool_kw custom_tos) :: rest.
Proof.
  cbn zeta. run_cases; cbn [snd];
    try (match type of Hloop with
         | for_ ?cs ?b ?s = _ =>
             pose proof (loop_frame w cs s) as (F1 & _ & _ & _ & F5);
             destruct (loop_trace_grows w cs s) as [evs Hevs];
             rewrite Hloop in F1, F5, Hevs; cbn in F1, F5, Hevs
         end);
    cbn; rewrite ?Hevs; cbn; (split; [done|split; [done|by eexists]]).
Qed.

(** ** Division by the elapsed time *)

(** C1. The claim asks that no throughput computation crashes when the
    elapsed time is zero.  The script divides without a guard at lines 59
    and 69: on an empty body fetched within one clock reading the final
    status raises [ZeroDivisionError] and prints nothing, and on a chunk
    that arrives within the reading of the start the loop raises it before
    the chunk is written. *)
Theorem zero_elapsed_raises :
  run (steady_world 1700000000 0 empty_response) "http://example.com/empty"
    None None
  = (inl ZeroDivisionError,
     mkState 1700000000 0 0 "" " ??%" 0 ∅ "empty" 2
       [Clock 1700000000; Request "GET" "http://example.com/empty" ∅;
        OpenFile "empty" "wb"; CloseFile; CloseResponse; Clock 1700000000])
  /\ fst (run (steady_world 1700000000 0 (mkResponse [] [zeros 3]))
            "http://example.com/three" None None) = inl ZeroDivisionError
  /\ file_content
       (trace (snd (run (steady_world 1700000000 0 (mkResponse [] [zeros 3]))
                      "http://example.com/three" None None))) = [].
Proof. repeat split; vm_compute; reflexivity. Qed.

(** ** The byte counter *)

(** C8. The byte counter never decreases: one iteration adds the length of
    its chunk, which is not negative, whether or not the iteration raises;
    the loop over more chunks ends with a counter at least as large; the
    steps around the loop (reading the header, the final status) leave the
    counter alone; and the counter a call ends with is not below the zero
    it starts from. *)
Theorem downloaded_bytes_monotone (w : World) :
  (forall chunk s,
     downloaded_bytes (snd (loop_body w chunk s))
     = downloaded_bytes s + Py.len chunk
     /\ downloaded_bytes s <= downloaded_bytes (snd (loop_body w chunk s)))
  /\ (forall cs1 cs2 s,
        downloaded_bytes s
        <= downloaded_bytes (snd (for_ cs1 (loop_body w) s))
        <= downloaded_bytes (snd (for_ (cs1 ++ cs2) (loop_body w) s)))
  /\ (forall response s,
        downloaded_bytes (snd (read_content_length response s))
        = downloaded_bytes s
        /\ downloaded_bytes (snd (final_status w s)) = downloaded_bytes s)
  /\ (forall url custom_tos output,
        0 <= downloaded_bytes (snd (run w url custom_tos output))).
Proof.
  split; [|split; [|split]].
  - intros chunk s. rewrite loop_body_counter.
    pose proof (len_nonneg chunk). split; [reflexivity|lia].
  - intros cs1 cs2 s. split; [apply loop_counter_lower|].
    rewrite for_app.
    destruct (for_ cs1 (loop_body w) s) as [[e|[]] s1]; cbn [snd]; [lia|].
    apply loop_counter_lower.
  - intros response s. split.
    + rewrite read_content_length_spec.
      destruct (Headers.contains _ _); [|reflexivity]. cbn zeta.
      destruct (Py.int _); reflexivity.
    + rewrite final_status_spec. cbn zeta.
      destruct (PrimFloat.eqb _ _); reflexivity.
  - intros url custom_tos output. run_cases; cbn [snd];
      try (match type of Hloop with
           | for_ ?cs ?b ?s = _ =>
               pose proof (loop_counter_lower w cs s) as Hlow;
               rewrite Hloop in Hlow; cbn in Hlow
           end);
      cbn; lia.
Qed.

(** C2. When the loop ends normally the counter has grown by the sum of
    the lengths of the chunks, and exactly those chunks were written, in
    order.  Hence a call that returns normally got a response, ends with
    the counter at the size [S] of its body, has written [S] bytes, and its
    last two lines are the summary, which reads "Downloaded: [S] bytes in"
    followed by the time and the speed, and the name of the file. *)
Theorem byte_count_accurate (w : World) :
  (forall cs s s',
     for_ cs (loop_body w) s = (inr tt, s') ->
     downloaded_bytes s' = downloaded_bytes s + total_len cs
     /\ written_chunks (trace s') = written_chunks (trace s) ++ cs)
  /\ (forall url custom_tos output s',
        run w url custom_tos output = (inr tt, s') ->
        exists response,
          respond w url = inr response
          /\ downloaded_bytes s' = total_len (chunks response)
          /\ written_chunks (trace s') = chunks response
          /\ file_content (trace s') = concat (chunks response)
          /\ total_len (chunks response) = Py.len (concat (chunks response))
          /\ exists (before : list event) (elapsed speed : string),
               trace s' =
               before ++
               [Print (Py.LF +:+ "Downloaded: "
                       +:+ Py.str (total_len (chunks response))
                       +:+ " bytes in " +:+ elapsed +:+ " seconds| Speed: "
                       +:+ speed +:+ " bytes/sec") Py.LF;
                Print ("File saved as: " +:+ destination output url) Py.LF]).
Proof.
  split; [intros cs s s'; apply loop_finished|].
  intros url custom_tos output s'. run_cases; intros [= <-].
  all: exists response; split; [reflexivity|].
  all: match type of Hloop with
       | for_ ?cs ?b ?s = _ =>
           pose proof (loop_frame w cs s) as (_ & _ & _ & Hname & _);
           rewrite Hloop in Hname; cbn in Hname
       end.
  all: apply loop_finished in Hloop as [Hdb Hwr]; cbn in Hdb, Hwr.
  all: rewrite Z.add_0_l in Hdb.
  all: cbn [downloaded_bytes trace record set_trace set_clock_calls filename].
  all: rewrite file_content_written, !written_chunks_app; cbn [written_chunks].
  all: rewrite !app_nil_r, Hwr, Hdb, Hname.
  all: repeat split; try reflexivity; try apply total_len_concat.
  all: eexists (trace s4 ++ [CloseFile; CloseResponse; Clock _]), _, _.
  all: rewrite <- !app_assoc; reflexivity.
Qed.

Lemma byte_count_accurate_witness :
  let w := steady_world 1700000000 0.25 kilobyte_response in
  let url := "http://example.com/pub/name.ext" in
  exists response,
    respond w url = inr response
    /\ downloaded_bytes (snd (run w url (Some 16) None))
       = total_len (chunks response)
    /\ written_chunks (trace (snd (run w url (Some 16) None)))
       = chunks response
    /\ file_content (trace (snd (run w url (Some 16) None)))
       = concat (chunks response)
    /\ total_len (chunks response) = Py.len (concat (chunks response))
    /\ exists (before : list event) (elapsed speed : string),
         trace (snd (run w url (Some 16) None)) =
         before ++
         [Print (Py.LF +:+ "Downloaded: "
                 +:+ Py.str (total_len (chunks response))
                 +:+ " bytes in " +:+ elapsed +:+ " seconds| Speed: "
                 +:+ speed +:+ " bytes/sec") Py.LF;
          Print ("File saved as: " +:+ destination None url) Py.LF].
Proof.
  intros w url.
  apply (proj2 (byte_count_accurate w) url (Some 16) None).
  vm_compute. reflexivity.
Defined.

(** The last two lines of that call, as text. *)
Example summary_kilobyte :
  let tr := trace (snd (run (steady_world 1700000000 0.25 kilobyte_response)
                          "http://example.com/pub/name.ext" (Some 16) None)) in
  drop (length tr - 2) tr =
  [Print (Py.LF
          +:+ "Downloaded: 1000 bytes in 1.25 seconds| Speed: 800.00 bytes/sec")
     Py.LF;
   Print "File saved as: name.ext" Py.LF].
Proof. vm_compute. reflexivity. Qed.

(** ** The socket option *)

Lemma pool_kw_lookup (custom_tos : option Z) :
  pool_kw custom_tos !! "socket_options"
  = (fun tos => [(IPPROTO_IP, IP_TOS, tos)]) <$> custom_tos.
Proof.
  destruct custom_tos as [tos|]; cbn; [apply lookup_insert_eq|done].
Qed.

(** C3. The pool keywords a call ends with hold the socket option
    [(IPPROTO_IP, IP_TOS, t)] exactly when [custom_tos] is [t]; without a
    marking they are empty; and they are the keywords the request was made
    with, which is the second event of every call. *)
Theorem tos_socket_option (w : World) (url : string) (custom_tos : option Z)
    (output : option string) :
  let s' := snd (run w url custom_tos output) in
  let kw := connection_pool_kw s' in
  (forall t,
     (exists opts, kw !! "socket_options" = Some opts
                   /\ In (IPPROTO_IP, IP_TOS, t) opts)
     <-> custom_tos = Some t)
  /\ (custom_tos = None -> kw = ∅)
  /\ (exists rest, trace s' = Clock (clock w 0) :: Request "GET" url kw :: rest).
Proof.
  cbn zeta.
  destruct (run_frame w url custom_tos output) as (_ & -> & Htrace).
  split; [|split; [by intros ->|exact Htrace]].
  intros t. rewrite pool_kw_lookup. split.
  - intros (opts & Hopts & Hin). destruct custom_tos as [tos|]; [|done].
    cbn in Hopts. injection Hopts as <-. destruct Hin as [[= ->]|[]]. done.
  - intros ->. eexists. split; [reflexivity|]. by left.
Qed.

Lemma tos_socket_option_witness :
  let w := steady_world 1700000000 0.25 kilobyte_response in
  let s' := snd (run w "http://example.com/pub/name.ext" (Some 16) None) in
  exists opts,
    connection_pool_kw s' !! "socket_options" = Some opts
    /\ In (IPPROTO_IP, IP_TOS, 16) opts.
Proof.
  intros w s'.
  apply (proj2 (proj1 (tos_socket_option w "http://example.com/pub/name.ext"
                         (Some 16) None) 16)).
  reflexivity.
Defined.

(** ** The destination file *)

Lemma rfind_absent (c : ascii) (s : string) :
  occurs c s = false -> Py.rfind c s = -1.
Proof.
  induction s as [|a s IH]; [done|]. cbn.
  intros [Ha Hs]%orb_false_iff. rewrite (IH Hs), Ha. done.
Qed.

Lemma rfind_last (c : ascii) (prefix name : string) :
  occurs c name = false ->
  Py.rfind c (prefix +:+ String c name) = Z.of_nat (String.length prefix).
Proof.
  intros Hname. induction prefix as [|a prefix IH].
  - change ("" +:+ String c name) with (String c name).
    cbn [Py.rfind String.length]. rewrite (rfind_absent c name Hname).
    cbn. by rewrite Ascii.eqb_refl.
  - change (String a prefix +:+ String c name)
      with (String a (prefix +:+ String c name)).
    cbn [Py.rfind String.length]. rewrite IH.
    destruct (0 <=? Z.of_nat (String.length prefix)) eqn:E; lia.
Qed.

(** The basename of a string that ends in a slash followed by a name with
    no slash in it is that name. *)
Lemma basename_last (prefix name : string) :
  occurs "/" name = false ->
  Py.basename (prefix +:+ "/" +:+ name) = name.
Proof.
  intros Hname. unfold Py.basename.
  change ("/" +:+ name) with (String "/" name).
  rewrite (rfind_last "/" prefix name Hname).
  replace (Z.to_nat (Z.of_nat (String.length prefix) + 1))
    with (S (String.length prefix)) by lia.
  change (S (String.length prefix))
    with (String.length (String "/" prefix)).
  revert name Hname. induction prefix as [|a prefix IH]; intros name Hname.
  - reflexivity.
  - change (String a prefix +:+ String "/" name)
      with (String a (prefix +:+ String "/" name)).
    cbn [String.length Py.slice_from]. by apply IH.
Qed.

(** A call opens no file but its destination, for writing bytes. *)
Lemma run_opens (w : World) (url : string) (custom_tos : option Z)
    (output : option string) (f mode : string) :
  In (OpenFile f mode) (trace (snd (run w url custom_tos output))) ->
  f = destination output url /\ mode = "wb".
Proof.
  intros Hin.
  assert (Forall (fun e => match e with
                           | OpenFile f mode =>
                               f = destination output url /\ mode = "wb"
                           | _ => True
                           end)
            (trace (snd (run w url custom_tos output)))) as H
    by (apply run_trace_Forall; done).
  eapply List.Forall_forall in H; [|exact Hin]. exact H.
Qed.

(** C4, the claim as stated fails: the script takes the basename of the
    whole URL, so a query after the path stays in the file name. *)
Lemma basename_keeps_query :
  ~ (forall url name,
       spec_last_path_component url = name -> name <> "" ->
       destination None url = name).
Proof.
  intros H.
  specialize (H "http://example.com/pub/name.ext?rev=2" "name.ext"
                eq_refl ltac:(discriminate)).
  vm_compute in H. discriminate.
Qed.

(** C4, amended.  For a URL that ends in a slash followed by a name with
    no slash in it (nothing, such as a query or a fragment, follows the
    last path component) and no output name, the destination is that name,
    and it is the only file a call opens. *)
Theorem destination_is_last_component (prefix name : string) :
  occurs "/" name = false ->
  destination None (prefix +:+ "/" +:+ name) = name
  /\ forall w custom_tos f mode,
       In (OpenFile f mode)
          (trace (snd (run w (prefix +:+ "/" +:+ name) custom_tos None))) ->
       f = name.
Proof.
  intros Hname.
  assert (destination None (prefix +:+ "/" +:+ name) = name) as Hdest
    by apply (basename_last prefix name Hname).
  split; [exact Hdest|].
  intros w custom_tos f mode Hin. apply run_opens in Hin as [-> _]. exact Hdest.
Qed.

Lemma destination_is_last_component_witness :
  destination None ("http://example.com/pub" +:+ "/" +:+ "name.ext")
  = "name.ext"
  /\ forall w custom_tos f mode,
       In (OpenFile f mode)
          (trace (snd (run w ("http://example.com/pub" +:+ "/" +:+ "name.ext")
                         custom_tos None))) ->
       f = "name.ext".
Proof.
  apply (destination_is_last_component "http://example.com/pub" "name.ext").
  reflexivity.
Defined.



(** ** The percentage field *)

Lemma progress_lines_record (e : event) (s : state) :
  progress_lines (trace (record e s))
  = progress_lines (trace s) ++ progress_lines [e].
Proof. cbn [record trace set_trace]. apply progress_lines_app. Qed.

(** With [size] not positive at the start of the loop, every status line
    of the call shows the initial [percent]. *)
Lemma run_percent_unknown (w : World) (url : string) (custom_tos : option Z)
    (output : option string) (response : Response) (cl : string) :
  respond w url = inr response ->
  (let s2 := snd (read_content_length response
                    (set_filename (destination output url)
                       (at_request w url custom_tos))) in
   size s2 <= 0 /\ content_length s2 = cl) ->
  Forall (status_shows cl " ??%")
    (progress_lines (trace (snd (run w url custom_tos output)))).
Proof.
  intros Hrespond. rewrite run_spec, Hrespond. clear Hrespond.
  destruct (read_content_length _ _) as [[e|[]] s2] eqn:Hheader;
    cbn [snd]; intros [Hsize Hcl].
  all: assert (percent s2 = " ??%" /\ progress_lines (trace s2) = [])
         as [Hp Hlines]
         by (revert Hheader; rewrite read_content_length_spec;
             destruct (Headers.contains _ _); cbn zeta;
             [destruct (Py.int _)|]; intros [=]; subst; done).
  - rewrite progress_lines_record, Hlines. constructor.
  - case_open; [cbn [snd]; rewrite progress_lines_record, Hlines; constructor|].
    pose proof (loop_percent_unknown w (chunks response) cl " ??%"
      (record (OpenFile (destination output url) "wb") s2)) as Hloop'.
    rewrite progress_lines_record, Hlines in Hloop'.
    specialize (Hloop' Hsize Hcl Hp ltac:(constructor)).
    case_loop; cbn [snd trace record set_trace set_clock_calls] in *;
      rewrite !progress_lines_app; cbn [progress_lines];
      change (is_CR Py.LF) with false; cbn iota;
      rewrite ?app_nil_r; exact Hloop'.
Qed.

Lemma percent_text_quarter : percent_text 250 1000 = " 25%".
Proof. vm_compute. reflexivity. Qed.

(** C5. An iteration that starts with a declared size of 1000 and brings
    the counter to 250 prints a status line exactly when one is due and
    the elapsed time is not zero, and then the line reads "Downloaded:
    250", the length suffix, " bytes", the percentage field ["25%"],
    right-aligned as [" 25%"], and the speed; and when the response has no
    [Content-Length] header, every status line of the call has the field
    ["??%"], as [" ??%"]. *)
Theorem percent_field (w : World) :
  (forall chunk s,
     size s = 1000 -> downloaded_bytes s + Py.len chunk = 250 ->
     let s' := snd (loop_body w chunk s) in
     let e := (clock w (clock_calls s) - start_time s)%float in
     exists evs,
       trace s' = trace s ++ evs
       /\ (((displayed_time s <=? e)%float = false \/ (e =? 0)%float = true)
           /\ progress_lines evs = []
           \/ ((displayed_time s <=? e)%float = true
               /\ (e =? 0)%float = false
               /\ percent s' = " 25%"
               /\ exists speed : string,
                    progress_lines evs =
                    ["Downloaded: 250" +:+ content_length s
                     +:+ " bytes  25%| Speed: " +:+ speed +:+ " bytes/sec"])))
  /\ (forall url custom_tos output response,
        respond w url = inr response ->
        Headers.contains "Content-Length" (headers response) = false ->
        Forall (fun line =>
                  exists (n : Z) (speed : string),
                    line = "Downloaded: " +:+ Py.str n
                           +:+ " bytes  ??%| Speed: " +:+ speed
                           +:+ " bytes/sec")
          (progress_lines (trace (snd (run w url custom_tos output))))).
Proof.
  split.
  - intros chunk s Hsize Hdb. cbn zeta.
    body_cases w chunk s; rewrite Htr; eexists; (split; [reflexivity|]).
    all: cbn [progress_lines]; change (is_CR Py.CR) with true; cbn iota.
    all: try (left; split; [by auto|reflexivity]).
    all: right; split; [done|]; split; [done|].
    all: rewrite Hsize, Hdb in Hp; change (0 <? 1000) with true in Hp;
      cbn iota in Hp; rewrite percent_text_quarter in Hp.
    all: split; [exact Hp|]; rewrite Hp, Hdb.
    all: eexists; reflexivity.
  - intros url custom_tos output response Hrespond Hcontains.
    apply (run_percent_unknown w url custom_tos output response ""); [done|].
    rewrite read_content_length_spec, Hcontains. cbn. done.
Qed.

Lemma percent_field_witness :
  let w := steady_world 1700000000 0.25 kilobyte_response in
  let url := "http://example.com/pub/name.ext" in
  let s := set_size 1000 (at_request w url None) in
  (exists evs,
     trace (snd (loop_body w (zeros 250) s)) = trace s ++ evs
     /\ (((displayed_time s <=? clock w 1 - start_time s)%float = false
          \/ (clock w 1 - start_time s =? 0)%float = true)
         /\ progress_lines evs = []
         \/ ((displayed_time s <=? clock w 1 - start_time s)%float = true
             /\ (clock w 1 - start_time s =? 0)%float = false
             /\ percent (snd (loop_body w (zeros 250) s)) = " 25%"
             /\ exists speed : string,
                  progress_lines evs =
                  ["Downloaded: 250" +:+ content_length s
                   +:+ " bytes  25%| Speed: " +:+ speed +:+ " bytes/sec"])))
  /\ Forall (fun line =>
               exists (n : Z) (speed : string),
                 line = "Downloaded: " +:+ Py.str n
                        +:+ " bytes  ??%| Speed: " +:+ speed
                        +:+ " bytes/sec")
       (progress_lines
          (trace (snd (run (steady_world 1700000000 0.25
                              (mkResponse [] [zeros 7; zeros 5]))
                         url None None)))).
Proof.
  intros w url s. split.
  - apply (proj1 (percent_field w) (zeros 250) s); reflexivity.
  - apply (proj2 (percent_field
                    (steady_world 1700000000 0.25
                       (mkResponse [] [zeros 7; zeros 5])))
             url None None (mkResponse [] [zeros 7; zeros 5]));
      reflexivity.
Defined.

(** The status lines of the two calls above, as text. *)
Example percent_lines :
  progress_lines
    (trace (snd (run (steady_world 1700000000 0.25 kilobyte_response)
                   "http://example.com/pub/name.ext" None None)))
  = ["Downloaded: 250/1000 bytes  25%| Speed:   1000.00 bytes/sec";
     "Downloaded: 750/1000 bytes  75%| Speed:   1000.00 bytes/sec"]
  /\ progress_lines
       (trace (snd (run (steady_world 1700000000 0.25
                           (mkResponse [] [zeros 7; zeros 5]))
                      "http://example.com/pub/name.ext" None None)))
     = ["Downloaded: 7 bytes  ??%| Speed:     28.00 bytes/sec"].
Proof. split; vm_compute; reflexivity. Qed.

(** C10. When the response declares [Content-Length: 0], a call ends with
    [size] 0 and the suffix ["/0"], and every status line it printed reads
    "Downloaded: [n]/0 bytes" with the percentage field ["??%"]: the
    percentage is computed only for a positive size. *)
Theorem zero_content_length (w : World) (url : string) (custom_tos : option Z)
    (output : option string) (response : Response) :
  respond w url = inr response ->
  Headers.contains "Content-Length" (headers response) = true ->
  Headers.getitem "Content-Length" (headers response) = "0" ->
  let s' := snd (run w url custom_tos output) in
  size s' = 0 /\ content_length s' = "/0"
  /\ Forall (fun line =>
               exists (n : Z) (speed : string),
                 line = "Downloaded: " +:+ Py.str n
                        +:+ "/0 bytes  ??%| Speed: " +:+ speed
                        +:+ " bytes/sec")
       (progress_lines (trace s')).
Proof.
  intros Hrespond Hcontains Hget. cbn zeta.
  split; [|split].
  3: { apply (run_percent_unknown w url custom_tos output response "/0");
         [done|].
       rewrite read_content_length_spec, Hcontains. cbn zeta. rewrite Hget.
       done. }
  all: rewrite run_spec, Hrespond, read_content_length_spec, Hcontains;
    cbn zeta; rewrite Hget; change (Py.int "0") with (Some 0); cbn iota;
    case_open; [reflexivity|];
    match goal with
    | |- context [for_ ?cs ?b ?s] =>
        pose proof (loop_frame w cs s) as (_ & Hsize & Hcl & _)
    end;
    case_loop; cbn in *; first [exact Hsize|exact Hcl].
Qed.

Lemma zero_content_length_witness :
  let response := mkResponse [("content-length", "0")] [zeros 4] in
  let w := steady_world 1700000000 0.25 response in
  let s' := snd (run w "http://example.com/a" None None) in
  size s' = 0 /\ content_length s' = "/0"
  /\ Forall (fun line =>
               exists (n : Z) (speed : string),
                 line = "Downloaded: " +:+ Py.str n
                        +:+ "/0 bytes  ??%| Speed: " +:+ speed
                        +:+ " bytes/sec")
       (progress_lines (trace s')).
Proof.
  intros response w.
  apply (zero_content_length w "http://example.com/a" None None response);
    reflexivity.
Defined.

(** The status line of that call, as text. *)
Example zero_length_line :
  progress_lines
    (trace (snd (run (steady_world 1700000000 0.25
                        (mkResponse [("content-length", "0")] [zeros 4]))
                   "http://example.com/a" None None)))
  = ["Downloaded: 4/0 bytes  ??%| Speed:     16.00 bytes/sec"].
Proof. vm_compute. reflexivity. Qed.

(** ** The order of the steps of an iteration *)

(** C6, the claim as stated fails: the status line for a chunk is printed
    before that chunk is written. *)
Lemma write_follows_status :
  ~ (forall w chunk s s',
       loop_body w chunk s = (inr tt, s') ->
       exists evs, trace s' = trace s ++ evs /\ spec_iteration_order chunk evs).
Proof.
  intros H.
  pose (w := steady_world 1700000000 0.25 (mkResponse [] [zeros 3])).
  pose (s := at_request w "http://example.com/a" None).
  destruct (H w (zeros 3) s (snd (loop_body w (zeros 3) s)) eq_refl)
    as (evs & Htr & t & Hevs).
  destruct Hevs as [->|[line ->]]; vm_compute in Htr; discriminate.
Qed.

(** C6, amended.  An iteration that completes adds the chunk's length to
    the counter, reads the clock, prints the status line if one is due,
    and only then writes the chunk; a status line it prints already counts
    the chunk that is about to be written. *)
Theorem iteration_order_holds (w : World) (chunk : Py.bytes) (s s' : state) :
  loop_body w chunk s = (inr tt, s') ->
  downloaded_bytes s' = downloaded_bytes s + Py.len chunk
  /\ exists evs,
       trace s' = trace s ++ evs
       /\ iteration_order chunk evs
       /\ forall line,
            In (Print line Py.CR) evs ->
            exists download_speed,
              line = progress_line (downloaded_bytes s + Py.len chunk)
                       (content_length s) (percent s') download_speed.
Proof.
  intros Hbody.
  body_cases w chunk s; destruct Hframe as (_ & _ & _ & _ & _ & _ & Hdb);
    rewrite Hbody in *; cbn [fst snd] in *; try discriminate.
  all: (split; [exact Hdb|]); eexists; (split; [exact Htr|]).
  - split; [eexists; by left|].
    intros line [[=]|[[=]|[]]].
  - split; [eexists; right; by eexists|].
    intros line [[=]|[[= <-]|[[=]|[]]]]. by eexists.
Qed.

Lemma iteration_order_holds_witness :
  let w := steady_world 1700000000 0.25 (mkResponse [] [zeros 3]) in
  let s := at_request w "http://example.com/a" None in
  let s' := snd (loop_body w (zeros 3) s) in
  downloaded_bytes s' = downloaded_bytes s + Py.len (zeros 3)
  /\ exists evs,
       trace s' = trace s ++ evs
       /\ iteration_order (zeros 3) evs
       /\ forall line,
            In (Print line Py.CR) evs ->
            exists download_speed,
              line = progress_line (downloaded_bytes s + Py.len (zeros 3))
                       (content_length s) (percent s') download_speed.
Proof.
  intros w s s'. apply (iteration_order_holds w (zeros 3) s s').
  vm_compute. reflexivity.
Defined.

(** ** The cadence of the status lines *)

Lemma progress_times_quiet (start last : float) (evs : list event) :
  progress_lines evs = [] -> progress_times start last evs = [].
Proof.
  revert last. induction evs as [|e evs IH]; intros last; [done|].
  destruct e; cbn; try apply IH. destruct (is_CR end_); [done|apply IH].
Qed.

Lemma display_times_quiet (tr evs : list event) :
  progress_lines evs = [] -> display_times (tr ++ evs) = display_times tr.
Proof.
  intros Hq. destruct tr as [|e r].
  - destruct evs as [|[] evs]; try reflexivity.
    cbn in *. by apply progress_times_quiet.
  - destruct e; try reflexivity.
    rewrite display_times_app, progress_times_quiet by done.
    apply app_nil_r.
Qed.

Lemma progress_times_length (start last : float) (tr : list event) :
  length (progress_times start last tr) = length (progress_lines tr).
Proof.
  revert last. induction tr as [|e tr IH]; intros last; [done|].
  destruct e; cbn; try apply IH. destruct (is_CR end_); cbn; by rewrite IH.
Qed.

(** The display times of a call are spaced from tick 0 on. *)
Lemma run_spaced (w : World) (url : string) (custom_tos : option Z)
    (output : option string) :
  spaced 0 (display_times (trace (snd (run w url custom_tos output)))).
Proof.
  run_cases; cbn [snd];
    try (match type of Hloop with
         | for_ ?cs ?b ?s = _ =>
             assert (tick_inv s) as Hentry
               by (split; [by eexists|]; split; [exact I|];
                   cbn; intros ? He; split; [exact He|exact I]);
             apply (loop_tick_inv w cs) in Hentry;
             rewrite Hloop in Hentry; cbn [snd] in Hentry;
             destruct Hentry as (_ & Hentry & _)
         end);
    cbn [trace record set_trace set_clock_calls];
    rewrite <- ?app_assoc; rewrite ?display_times_quiet by reflexivity;
    try exact Hentry; cbn; done.
Qed.

(** C7, the claim as stated fails.  The script adds 0.5 to the elapsed
    time in binary64 and compares the next elapsed time with that rounded
    sum.  With the readings 0, 0.2 and 0.7 of the clock the two status
    lines are printed at the elapsed times 0.2 and 0.7, since the float
    sum of 0.2 and 0.5 is the float 0.7; the values of these two floats
    differ by less than one half, and so does their float difference. *)
Lemma half_second_is_rounded :
  ~ (forall w url custom_tos output i e1 e2,
       let tr := trace (snd (run w url custom_tos output)) in
       display_times tr !! i = Some e1 ->
       display_times tr !! S i = Some e2 ->
       (Py.exact e1 + (1 # 2) <= Py.exact e2)%Q
       \/ (0.5 <=? e2 - e1)%float = true).
Proof.
  intros H.
  pose (w := listed_world [0; 2 / 10; 7 / 10; 1]%float
               (mkResponse [] [zeros 3; zeros 3])).
  specialize (H w "http://example.com/a" None None 0%nat
                (clock w 1 - clock w 0)%float (clock w 2 - clock w 0)%float).
  cbn zeta in H.
  specialize (H ltac:(vm_compute; reflexivity) ltac:(vm_compute; reflexivity)).
  destruct H as [H|H].
  - apply Qle_bool_iff in H. vm_compute in H. discriminate.
  - vm_compute in H. discriminate.
Qed.

(** The status lines of that call. *)
Example rounded_tick_lines :
  progress_lines
    (trace (snd (run (listed_world [0; 2 / 10; 7 / 10; 1]%float
                        (mkResponse [] [zeros 3; zeros 3]))
                   "http://example.com/a" None None)))
  = ["Downloaded: 3 bytes  ??%| Speed:     15.00 bytes/sec";
     "Downloaded: 6 bytes  ??%| Speed:      8.57 bytes/sec"].
Proof. vm_compute. reflexivity. Qed.

(** C7, amended.  In every call, each status line but the first is
    printed at an elapsed time that is at or after the float sum of the
    elapsed time of the line before it and 0.5, and the first at or after
    0, in the comparison and the addition of floats that the script uses;
    there is one such time per status line.  In an iteration, a status
    line is printed only when the elapsed time has reached
    [displayed_time], which then becomes the float sum of that elapsed
    time and 0.5; otherwise [displayed_time] stays. *)
Theorem progress_cadence (w : World) :
  (forall url custom_tos output,
     let tr := trace (snd (run w url custom_tos output)) in
     (forall i e1 e2,
        display_times tr !! i = Some e1 ->
        display_times tr !! S i = Some e2 ->
        (e1 + 0.5 <=? e2)%float = true)
     /\ (forall e, display_times tr !! 0%nat = Some e ->
                   (0 <=? e)%float = true)
     /\ length (display_times tr) = length (progress_lines tr))
  /\ (forall chunk s,
        let e := (clock w (clock_calls s) - start_time s)%float in
        let s' := snd (loop_body w chunk s) in
        (progress_lines (trace s') <> progress_lines (trace s) ->
         (displayed_time s <=? e)%float = true
         /\ displayed_time s' = (e + 0.5)%float)
        /\ (progress_lines (trace s') = progress_lines (trace s) ->
            displayed_time s' = displayed_time s)).
Proof.
  split.
  - intros url custom_tos output. cbn zeta.
    pose proof (run_spaced w url custom_tos output) as Hsp.
    split; [|split].
    + intros i e1 e2. exact (spaced_lookup 0 _ i e1 e2 Hsp).
    + intros e He.
      destruct (display_times _) as [|e0 l]; [discriminate|].
      injection He as ->. apply Hsp.
    + destruct (run_frame w url custom_tos output) as (_ & _ & rest & ->).
      cbn [display_times progress_lines progress_times].
      apply progress_times_length.
  - intros chunk s. cbn zeta.
    body_cases w chunk s; rewrite Htr, progress_lines_app;
      cbn [progress_lines]; change (is_CR Py.CR) with true; cbn iota;
      rewrite ?app_nil_r; try done.
    all: split; [intros _; by split|].
    all: intros Heq; exfalso; revert Heq.
    all: generalize (progress_lines (trace s)); intros l Hl.
    all: apply (f_equal length) in Hl; rewrite length_app in Hl; cbn in Hl.
    all: lia.
Qed.

Lemma progress_cadence_witness :
  let w := steady_world 1700000000 0.25 kilobyte_response in
  ((clock w 1 - clock w 0) + 0.5 <=? clock w 3 - clock w 0)%float = true.
Proof.
  intros w.
  apply (proj1 (proj1 (progress_cadence w)
                  "http://example.com/pub/name.ext" (Some 16) None) 0%nat);
    vm_compute; reflexivity.
Defined.

(** * Further properties of [download_with_speed] *)

(** ** Failures before the loop *)

(** X1. A call that fails before the loop raises the exception of the step
    that failed and leaves no file behind: a failed request ends the call
    with nothing but the request made; a [Content-Length] that [int] does
    not take raises [ValueError] and a destination that cannot be opened
    raises the error of [open], both after the response is released and
    with no file opened; in all three cases nothing is written or printed. *)
Theorem early_failures (w : World) (url : string) (custom_tos : option Z)
    (output : option string) :
  let r := run w url custom_tos output in
  let made := [Clock (clock w 0); Request "GET" url (pool_kw custom_tos)] in
  (forall e, respond w url = inl e -> fst r = inl e /\ trace (snd r) = made)
  /\ (forall response,
        respond w url = inr response ->
        Headers.contains "Content-Length" (headers response) = true ->
        Py.int (Headers.getitem "Content-Length" (headers response)) = None ->
        fst r = inl ValueError /\ trace (snd r) = made ++ [CloseResponse])
  /\ (forall response e,
        respond w url = inr response ->
        (Headers.contains "Content-Length" (headers response) = true ->
         Py.int (Headers.getitem "Content-Length" (headers response)) <> None) ->
        open_error w (destination output url) = Some e ->
        fst r = inl e /\ trace (snd r) = made ++ [CloseResponse]).
Proof.
  cbn zeta. split; [|split].
  - intros e Hrespond. rewrite run_spec, Hrespond. by split.
  - intros response Hrespond Hcontains Hint.
    rewrite run_spec, Hrespond, read_content_length_spec, Hcontains.
    cbn zeta. rewrite Hint. by split.
  - intros response e Hrespond Hheader Hopen.
    rewrite run_spec, Hrespond. case_header; rewrite ?Hopen; try by split.
    by specialize (Hheader eq_refl).
Qed.

Lemma early_failures_witness :
  let url := "http://example.com/a" in
  let made w := [Clock (clock w 0); Request "GET" url (pool_kw (Some 8))] in
  (fst (run unreachable_world url (Some 8) None) = inl MaxRetryError
   /\ trace (snd (run unreachable_world url (Some 8) None))
      = made unreachable_world)
  /\ (let w := steady_world 1700000000 1 bad_length_response in
      fst (run w url (Some 8) None) = inl ValueError
      /\ trace (snd (run w url (Some 8) None)) = made w ++ [CloseResponse])
  /\ (let w := steady_world 1700000000 1 unit_separator_response in
      fst (run w url (Some 8) None) = inl ValueError
      /\ trace (snd (run w url (Some 8) None)) = made w ++ [CloseResponse])
  /\ (let w := readonly_world 1700000000 1 kilobyte_response in
      fst (run w url (Some 8) None) = inl (OSError 13)
      /\ trace (snd (run w url (Some 8) None)) = made w ++ [CloseResponse]).
Proof.
  intros url made. split; [|split; [|split]].
  - apply (proj1 (early_failures unreachable_world url (Some 8) None)).
    reflexivity.
  - apply (proj1 (proj2 (early_failures
                           (steady_world 1700000000 1 bad_length_response)
                           url (Some 8) None)) bad_length_response);
      reflexivity.
  - apply (proj1 (proj2 (early_failures
                           (steady_world 1700000000 1 unit_separator_response)
                           url (Some 8) None)) unit_separator_response);
      reflexivity.
  - apply (proj2 (proj2 (early_failures
                           (readonly_world 1700000000 1 kilobyte_response)
                           url (Some 8) None)) kilobyte_response);
      [reflexivity|intros _; vm_compute; discriminate|reflexivity].
Defined.

(** ** How a call can end *)


(** The loop reads the clock once in every iteration it starts. *)
Lemma loop_clock_calls (w : World) (cs : list Py.bytes) (s : state) :
  let r := for_ cs (loop_body w) s in
  (clock_calls s <= clock_calls (snd r) <= clock_calls s + length cs)%nat
  /\ (fst r = inr tt -> clock_calls (snd r) = (clock_calls s + length cs)%nat).
Proof.
  revert s. induction cs as [|c cs IH]; intros s; cbn zeta.
  - cbn. split; [lia|intros _; lia].
  - rewrite for_cons.
    destruct (loop_body_spec w c s) as [(_ & _ & _ & _ & _ & F6 & _) _].
    destruct (loop_body w c s) as [[e|[]] s1]; cbn [fst snd length] in *.
    + split; [lia|discriminate].
    + specialize (IH s1). cbn zeta in IH. rewrite F6 in IH.
      destruct IH as [IH1 IH2]. split; [lia|]. intros H. rewrite IH2; [lia|done].
Qed.



(** ** The order of the events of a call *)

(** What the loop appends to the trace, event by event. *)
Lemma loop_trace_events (w : World) (cs : list Py.bytes) (s : state) :
  exists evs,
    trace (snd (for_ cs (loop_body w) s)) = trace s ++ evs
    /\ Forall (fun e => is_loop_event e = true) evs.
Proof.
  apply (for_preserves (fun s' =>
    exists evs, trace s' = trace s ++ evs
                /\ Forall (fun e => is_loop_event e = true) evs));
    [|exists []; by rewrite app_nil_r].
  intros x s1 (evs & Hevs & Hall).
  body_cases w x s1; rewrite Htr, Hevs, <- app_assoc;
    (eexists; split; [reflexivity|]); apply Forall_app; (split; [done|]);
    by repeat constructor.
Qed.

(** X3. Once the request has succeeded, the trace of a call is: the first
    clock reading and the request; then either nothing, or the opening of
    the destination, the events of the loop (clock readings, status lines
    and writes only) and the closing of the file; then the release of the
    response; then only clock readings and lines that end in a newline.
    The file is closed and the response released on every path, also when
    the loop raises, and no final line is printed before both. *)
Theorem run_trace_shape (w : World) (url : string) (custom_tos : option Z)
    (output : option string) (response : Response) :
  respond w url = inr response ->
  exists body final,
    trace (snd (run w url custom_tos output))
    = [Clock (clock w 0); Request "GET" url (pool_kw custom_tos)]
      ++ body ++ CloseResponse :: final
    /\ (body = []
        \/ exists evs,
             body = OpenFile (destination output url) "wb" :: evs ++ [CloseFile]
             /\ Forall (fun e => is_loop_event e = true) evs)
    /\ Forall (fun e => is_final_event e = true) final.
Proof.
  intros Hrespond. rewrite run_spec, Hrespond.
  case_header; case_open;
    try (exists [], []; repeat split; [by left|constructor]).
  all: match goal with
       | |- context [for_ ?cs ?b ?s] =>
           destruct (loop_trace_events w cs s) as (evs & Hevs & Hall)
       end.
  all: case_loop; cbn [snd trace record set_trace set_clock_calls] in *.
  all: rewrite Hevs; cbn [trace record set_trace set_filename set_size
                            set_content_length at_request].
  all: rewrite <- ?app_assoc; cbn [app].
  all: eexists (OpenFile (destination output url) "wb" :: evs ++ [CloseFile]).
  all: eexists.
  all: (split; [cbn [app]; rewrite <- ?app_assoc; cbn [app]; reflexivity|]).
  all: (split; [right; by eexists|]).
  all: by repeat constructor.
Qed.

Lemma run_trace_shape_witness :
  let w := steady_world 1700000000 0.25 kilobyte_response in
  let url := "http://example.com/pub/name.ext" in
  exists body final,
    trace (snd (run w url (Some 16) None))
    = [Clock (clock w 0); Request "GET" url (pool_kw (Some 16))]
      ++ body ++ CloseResponse :: final
    /\ (body = []
        \/ exists evs,
             body = OpenFile (destination None url) "wb" :: evs ++ [CloseFile]
             /\ Forall (fun e => is_loop_event e = true) evs)
    /\ Forall (fun e => is_final_event e = true) final.
Proof.
  intros w url.
  apply (run_trace_shape w url (Some 16) None kilobyte_response).
  reflexivity.
Defined.

(** ** What has been written when a call ends *)

Lemma total_len_app (a b : list Py.bytes) :
  total_len (a ++ b) = total_len a + total_len b.
Proof.
  induction a as [|c a IH]; [reflexivity|].
  cbn [app total_len foldr]. fold (total_len (a ++ b)). fold (total_len a).
  lia.
Qed.

(** The loop writes the chunks in order up to the one at which it raises;
    that one is counted but not written. *)
Lemma loop_written (w : World) (cs : list Py.bytes) (s : state) :
  let r := for_ cs (loop_body w) s in
  exists written,
    written_chunks (trace (snd r)) = written_chunks (trace s) ++ written
    /\ ((fst r = inr tt /\ written = cs
         /\ downloaded_bytes (snd r) = downloaded_bytes s + total_len cs)
        \/ ((exists e, fst r = inl e)
            /\ exists c rest,
                 cs = written ++ c :: rest
                 /\ downloaded_bytes (snd r)
                    = downloaded_bytes s + total_len written + Py.len c)).
Proof.
  revert s. induction cs as [|c cs IH]; intros s; cbn zeta.
  - exists []. rewrite app_nil_r. split; [done|]. left. cbn. split; [done|].
    split; [done|lia].
  - rewrite for_cons.
    pose proof (loop_body_counter w c s) as Hdb.
    pose proof (loop_body_written w c s) as Hwr.
    destruct (loop_body w c s) as [[e|[]] s1] eqn:Hbody; cbn [fst snd] in *.
    + exists []. rewrite app_nil_r. split.
      * clear Hwr. body_cases w c s; rewrite Hbody in *; cbn [fst snd] in *;
          try discriminate; rewrite Htr, written_chunks_app; cbn;
          by rewrite app_nil_r.
      * right. split; [by eexists|]. exists c, cs.
        split; [done|]. cbn. lia.
    + specialize (Hwr s1 eq_refl).
      destruct (IH s1) as (written & Hw & Hcase). cbn zeta in Hw, Hcase.
      exists (c :: written). rewrite Hw, Hwr, <- app_assoc.
      split; [done|].
      destruct Hcase as [(Hok & -> & Hdb')|(Hbad & c' & rest & -> & Hdb')].
      * left. split; [done|]. split; [done|]. rewrite Hdb', Hdb.
        cbn [total_len foldr]. fold (total_len cs). lia.
      * right. split; [done|]. exists c', rest. split; [done|].
        rewrite Hdb', Hdb. cbn [total_len foldr]. fold (total_len written).
        lia.
Qed.

(** X4. Whatever way a call ends, the chunks that the calls of
    [file.write] which returned were given are the first chunks of the
    body, in order.  The counter is the number of their bytes, except when
    the loop raised, for a division by zero or a failed write: then the
    call raised, the next chunk is counted but not written, and the
    counter is ahead by its length. *)
Theorem written_is_prefix (w : World) (url : string) (custom_tos : option Z)
    (output : option string) (response : Response) :
  respond w url = inr response ->
  let r := run w url custom_tos output in
  let written := written_chunks (trace (snd r)) in
  file_content (trace (snd r)) = concat written
  /\ exists rest,
       chunks response = written ++ rest
       /\ (downloaded_bytes (snd r) = total_len written
           \/ ((exists e, fst r = inl e)
               /\ exists c rest',
                    rest = c :: rest'
                    /\ downloaded_bytes (snd r)
                       = total_len written + Py.len c)).
Proof.
  intros Hrespond. cbn zeta. split; [apply file_content_written|].
  rewrite run_spec, Hrespond.
  case_header; case_open;
    try (exists (chunks response); split; [reflexivity|by left]).
  all: match goal with
       | |- context [for_ ?cs ?b ?s] =>
           destruct (loop_written w cs s) as (written & Hw & Hcase)
       end.
  all: cbn zeta in Hw, Hcase; cbn in Hw.
  all: case_loop; cbn [fst snd trace record set_trace set_clock_calls
                         downloaded_bytes] in *.
  all: rewrite !written_chunks_app; cbn [written_chunks]; rewrite ?app_nil_r.
  all: rewrite Hw.
  all: destruct Hcase as [(Hok & -> & Hdb)|(Hbad & c & rest & Hcs & Hdb)];
    try (destruct Hbad as [? Hbad]; discriminate Hbad).
  all: try (exists []; rewrite app_nil_r; split; [done|left];
            rewrite Hdb; cbn; lia).
  all: exists (c :: rest); split; [done|right].
  all: split; [by eexists|]; exists c, rest; split; [done|].
  all: rewrite Hdb; cbn; lia.
Qed.

Lemma written_is_prefix_witness :
  let response := mkResponse [] [zeros 3; zeros 2; zeros 4] in
  let w := mkWorld (clock (steady_world 1700000000 0.25 response))
             (fun _ => inr response) (fun _ => None) None
             (fun n => match n with 1%nat => Some (OSError 28) | _ => None end)
             None in
  let r := run w "http://example.com/a" None None in
  let written := written_chunks (trace (snd r)) in
  file_content (trace (snd r)) = concat written
  /\ exists rest,
       chunks response = written ++ rest
       /\ (downloaded_bytes (snd r) = total_len written
           \/ ((exists e, fst r = inl e)
               /\ exists c rest',
                    rest = c :: rest'
                    /\ downloaded_bytes (snd r)
                       = total_len written + Py.len c)).
Proof.
  intros response w.
  apply (written_is_prefix w "http://example.com/a" None None response).
  reflexivity.
Defined.

(** In that call the second write fails: one chunk has been written and
    two have been counted. *)
Example failed_write :
  let response := mkResponse [] [zeros 3; zeros 2; zeros 4] in
  let w := mkWorld (clock (steady_world 1700000000 0.25 response))
             (fun _ => inr response) (fun _ => None) None
             (fun n => match n with 1%nat => Some (OSError 28) | _ => None end)
             None in
  let r := run w "http://example.com/a" None None in
  fst r = inl (OSError 28)
  /\ written_chunks (trace (snd r)) = [zeros 3]
  /\ downloaded_bytes (snd r) = 5.
Proof. repeat split; vm_compute; reflexivity. Qed.

(** ** The destination without an output name *)

Lemma last_slash_split (p : string) :
  occurs "/" p = false
  \/ exists pre post, p = pre +:+ "/" +:+ post /\ occurs "/" post = false.
Proof.
  induction p as [|a p IH]; [by left|].
  destruct IH as [Hnone|(pre & post & -> & Hpost)].
  - cbn [occurs]. destruct (Ascii.eqb a "/") eqn:Ha.
    + right. exists "", p. apply Ascii.eqb_eq in Ha as ->. by split.
    + left. by rewrite Hnone.
  - right. exists (String a pre), post. by split.
Qed.

Lemma basename_no_slash (p : string) :
  occurs "/" p = false -> Py.basename p = p.
Proof.
  intros Hp. unfold Py.basename. by rewrite (rfind_absent "/" p Hp).
Qed.

(** X5. With no output name, or an empty one, the destination is what
    follows the last slash of the URL: it has no slash in it, so the file
    is created in the working directory, and the URL is the destination
    after a part that is empty or ends in a slash.  Taking the basename
    again changes nothing.  A non-empty output name is used as it is. *)
Theorem destination_in_working_directory (url : string) :
  occurs "/" (destination None url) = false
  /\ destination (Some "") url = destination None url
  /\ (exists dir,
        url = dir +:+ destination None url
        /\ (dir = "" \/ exists d, dir = d +:+ "/"))
  /\ Py.basename (destination None url) = destination None url
  /\ (forall c output, destination (Some (String c output)) url
                       = String c output).
Proof.
  change (destination None url) with (Py.basename url).
  assert (occurs "/" (Py.basename url) = false
          /\ exists dir,
               url = dir +:+ Py.basename url
               /\ (dir = "" \/ exists d, dir = d +:+ "/")) as [Hno Hdir].
  { destruct (last_slash_split url) as [Hnone|(pre & post & -> & Hpost)].
    - rewrite (basename_no_slash url Hnone). split; [done|].
      exists "". split; [done|by left].
    - rewrite (basename_last pre post Hpost). split; [done|].
      exists (pre +:+ "/"). split; [|right; by eexists].
      clear. induction pre as [|a pre IH]; [done|].
      change (String a pre +:+ "/" +:+ post)
        with (String a (pre +:+ "/" +:+ post)).
      change ((String a pre +:+ "/") +:+ post)
        with (String a ((pre +:+ "/") +:+ post)).
      by rewrite IH. }
  repeat split; try done. by apply basename_no_slash.
Qed.

(** X6. For a URL that ends in a slash, with no output name, the
    destination is the empty path: the file the call asks to open has the
    empty name, and when that cannot be opened the call raises the error of
    [open] with nothing written. *)
Theorem trailing_slash_empty_destination (w : World) (prefix : string)
    (custom_tos : option Z) :
  let url := prefix +:+ "/" in
  destination None url = ""
  /\ (forall f mode,
        In (OpenFile f mode) (trace (snd (run w url custom_tos None))) ->
        f = "")
  /\ (forall response e,
        respond w url = inr response ->
        (Headers.contains "Content-Length" (headers response) = true ->
         Py.int (Headers.getitem "Content-Length" (headers response)) <> None) ->
        open_error w "" = Some e ->
        fst (run w url custom_tos None) = inl e
        /\ file_content (trace (snd (run w url custom_tos None))) = []).
Proof.
  cbn zeta.
  assert (destination None (prefix +:+ "/") = "") as Hdest
    by apply (basename_last prefix "" eq_refl).
  split; [exact Hdest|]. split.
  - intros f mode Hin. apply run_opens in Hin as [-> _]. exact Hdest.
  - intros response e Hrespond Hheader Hopen.
    rewrite run_spec, Hrespond, Hdest. case_header; rewrite ?Hopen;
      [by split|by specialize (Hheader eq_refl)|by split].
Qed.

Lemma trailing_slash_empty_destination_witness :
  let w := mkWorld (fun n => Py.float_of_int (Z.of_nat n))
             (fun _ => inr kilobyte_response)
             (fun path => if String.eqb path "" then Some (OSError 2)
                          else None)
             None (fun _ => None) None in
  fst (run w ("http://example.com/pub" +:+ "/") None None) = inl (OSError 2)
  /\ file_content
       (trace (snd (run w ("http://example.com/pub" +:+ "/") None None))) = [].
Proof.
  intros w.
  apply (proj2 (proj2 (trailing_slash_empty_destination w
                         "http://example.com/pub" None))
           kilobyte_response (OSError 2));
    [reflexivity|intros _; vm_compute; discriminate|reflexivity].
Defined.

(** ** Status lines *)

(** The status lines of a call are those of its loop. *)
Lemma run_progress_lines (w : World) (url : string) (custom_tos : option Z)
    (output : option string) :
  progress_lines (trace (snd (run w url custom_tos output))) =
  match respond w url with
  | inl _ => []
  | inr response =>
      match read_content_length response
              (set_filename (destination output url)
                 (at_request w url custom_tos)) with
      | (inl _, _) => []
      | (inr _, s2) =>
          match open_error w (destination output url) with
          | Some _ => []
          | None =>
              progress_lines
                (trace (snd (for_ (chunks response) (loop_body w)
                               (record (OpenFile (destination output url) "wb")
                                  s2))))
          end
      end
  end.
Proof.
  rewrite run_spec. case_respond; [reflexivity|].
  destruct (read_content_length _ _) as [[e|[]] s2] eqn:Hheader.
  all: assert (progress_lines (trace s2) = []) as Hlines
         by (revert Hheader; rewrite read_content_length_spec;
             destruct (Headers.contains _ _); cbn zeta;
             [destruct (Py.int _)|]; intros [=]; subst; done).
  - cbn [snd]. by rewrite progress_lines_record, Hlines.
  - case_open; [cbn [snd]; by rewrite progress_lines_record, Hlines|].
    case_loop; cbn [snd trace record set_trace set_clock_calls];
      rewrite !progress_lines_app; cbn [progress_lines];
      change (is_CR Py.LF) with false; cbn iota;
      by rewrite ?app_nil_r.
Qed.

Lemma loop_lines_bound (w : World) (cs : list Py.bytes) (s : state) :
  (length (progress_lines (trace (snd (for_ cs (loop_body w) s))))
   <= length (progress_lines (trace s)) + length cs)%nat.
Proof.
  revert s. induction cs as [|c cs IH]; intros s; [cbn; lia|].
  rewrite for_cons.
  assert (length (progress_lines (trace (snd (loop_body w c s))))
          <= S (length (progress_lines (trace s))))%nat as Hstep.
  { body_cases w c s; rewrite Htr, progress_lines_app, length_app; cbn; lia. }
  destruct (loop_body w c s) as [[e|[]] s1]; cbn [fst snd length] in *; [lia|].
  specialize (IH s1). lia.
Qed.

(** X8. A call prints at most one status line per chunk of the body, and
    none when the request fails; in particular an empty body gives no
    status line. *)
Theorem status_lines_bounded (w : World) (url : string)
    (custom_tos : option Z) (output : option string) :
  (length (progress_lines (trace (snd (run w url custom_tos output))))
   <= match respond w url with
      | inr response => length (chunks response)
      | inl _ => 0
      end)%nat.
Proof.
  run_cases; try (cbn; lia).
  all: match type of Hloop with
       | for_ ?cs ?b ?s = _ =>
           pose proof (loop_lines_bound w cs s) as Hbound;
           rewrite Hloop in Hbound; cbn in Hbound
       end.
  all: cbn [snd trace record set_trace set_clock_calls].
  all: rewrite !progress_lines_app; cbn [progress_lines];
    change (is_CR Py.LF) with false; cbn iota; rewrite ?app_nil_r.
  all: exact Hbound.
Qed.

(** ** The first status line *)

(** X9. When the body has a first chunk and, at the reading of the clock
    taken for it, the elapsed time is at or after 0 and not zero, the call
    prints a status line for it, whatever happens afterwards: the first
    status line shows the length of the first chunk and, as the speed,
    that length divided by the elapsed time with two decimals in a field
    of nine characters. *)
Theorem first_chunk_is_reported (w : World) (url : string)
    (custom_tos : option Z) (output : option string) (response : Response)
    (c : Py.bytes) (cs : list Py.bytes) :
  respond w url = inr response ->
  chunks response = c :: cs ->
  (Headers.contains "Content-Length" (headers response) = true ->
   Py.int (Headers.getitem "Content-Length" (headers response)) <> None) ->
  open_error w (destination output url) = None ->
  (0 <=? clock w 1 - clock w 0)%float = true ->
  (clock w 1 - clock w 0 =? 0)%float = false ->
  exists (content_length percent : string) (rest : list string),
    progress_lines (trace (snd (run w url custom_tos output)))
    = ("Downloaded: " +:+ Py.str (Py.len c) +:+ content_length +:+ " bytes "
       +:+ percent +:+ "| Speed: "
       +:+ Py.format_f 9 2
             (Py.float_of_int (Py.len c) / (clock w 1 - clock w 0))
       +:+ " bytes/sec")
      :: rest.
Proof.
  intros Hrespond Hchunks Hheader Hopen Hpos Hnz.
  rewrite run_progress_lines, Hrespond, Hchunks.
  case_header; rewrite ?Hopen; cbn [snd].
  2: by specialize (Hheader eq_refl).
  all: rewrite for_cons.
  all: match goal with
       | |- context [loop_body ?w0 ?c0 ?s] =>
           destruct (loop_body_spec w0 c0 s) as [_ Hcases];
           cbn [clock_calls start_time displayed_time downloaded_bytes
                record set_trace set_size set_content_length set_filename
                at_request] in Hcases;
           destruct Hcases as [H|[H|H]];
           [destruct H as (Hdue & _); congruence
           |destruct H as (_ & Hzero & _); congruence
           |destruct H as (_ & _ & _ & _ & Htr & _)];
           destruct (loop_body w0 c0 s) as [[e|[]] s1]; cbn [fst snd] in *
       end.
  all: try match goal with
       | |- context [for_ ?cs0 ?b ?s0] =>
           destruct (loop_trace_events w cs0 s0) as (evs & Hevs & _)
       end.
  all: rewrite ?Hevs, Htr.
  all: rewrite !progress_lines_app; cbn [progress_lines];
    change (is_CR Py.CR) with true; cbn iota; cbn [app].
  all: rewrite Z.add_0_l; eexists _, _, _; reflexivity.
Qed.

Lemma first_chunk_is_reported_witness :
  let w := steady_world 1700000000 0.25 kilobyte_response in
  exists (content_length percent : string) (rest : list string),
    progress_lines
      (trace (snd (run w "http://example.com/pub/name.ext" (Some 16) None)))
    = ("Downloaded: " +:+ Py.str (Py.len (zeros 250)) +:+ content_length
       +:+ " bytes " +:+ percent +:+ "| Speed: "
       +:+ Py.format_f 9 2
             (Py.float_of_int (Py.len (zeros 250)) / (clock w 1 - clock w 0))
       +:+ " bytes/sec")
      :: rest.
Proof.
  intros w.
  apply (first_chunk_is_reported w "http://example.com/pub/name.ext"
           (Some 16) None kilobyte_response (zeros 250)
           [zeros 250; zeros 250; zeros 250]);
    [reflexivity|reflexivity|intros _; vm_compute; discriminate
    |reflexivity|vm_compute; reflexivity|vm_compute; reflexivity].
Defined.

(** One byte in forty seconds: the quotient is the float nearest to 0.025,
    which lies above it, so the speed reads 0.03. *)
Example slow_first_chunk :
  progress_lines
    (trace (snd (run (steady_world 1700000000 40 (mkResponse [] [zeros 1]))
                   "http://example.com/a" None None)))
  = ["Downloaded: 1 bytes  ??%| Speed:      0.03 bytes/sec"].
Proof. vm_compute. reflexivity. Qed.

(** ** The clock *)

Lemma clock_readings_app (a b : list event) :
  clock_readings (a ++ b) = clock_readings a ++ clock_readings b.
Proof.
  induction a as [|e a IH]; [reflexivity|].
  destruct e; cbn; try exact IH. by rewrite IH.
Qed.

Lemma loop_readings_inv (w : World) (cs : list Py.bytes) (s : state) :
  readings_inv w s -> readings_inv w (snd (for_ cs (loop_body w) s)).
Proof.
  apply (for_preserves (readings_inv w)). clear. intros c s Hs.
  unfold readings_inv in *.
  body_cases w c s; destruct Hframe as (_ & _ & _ & _ & _ & -> & _);
    rewrite seq_S, fmap_app; cbn [fmap list_fmap Nat.add];
    rewrite Htr, clock_readings_app, Hs; cbn [clock_readings];
    done.
Qed.

(** X10. The readings of the clock that a call takes are the first ones
    the environment offers, in order, as many as the call counts.  There
    is one at the start, one per chunk the loop starts on and one for the
    final status: a call that returns has taken two more readings than the
    body has chunks, and no call takes more. *)
Theorem clock_is_read_once_per_chunk (w : World) (url : string)
    (custom_tos : option Z) (output : option string) :
  let r := run w url custom_tos output in
  clock_readings (trace (snd r)) = clock w <$> seq 0 (clock_calls (snd r))
  /\ (1 <= clock_calls (snd r))%nat
  /\ (forall response,
        respond w url = inr response ->
        (clock_calls (snd r) <= 2 + length (chunks response))%nat
        /\ (fst r = inr tt ->
            clock_calls (snd r) = (2 + length (chunks response))%nat)).
Proof.
  cbn zeta.
  run_cases; cbn [fst snd];
    try (split; [reflexivity|split; [cbn; lia|]];
         intros response' Heq;
         first [discriminate Heq|split; [cbn; lia|discriminate]]).
  all: match type of Hloop with
       | for_ ?cs ?b ?s = _ =>
           pose proof (loop_readings_inv w cs s eq_refl) as Hinv;
           pose proof (loop_clock_calls w cs s) as Hcalls;
           cbn zeta in Hcalls; rewrite Hloop in Hinv, Hcalls;
           unfold readings_inv in Hinv;
           cbn [fst snd clock_calls record set_trace set_size
                set_content_length set_filename at_request] in Hinv, Hcalls;
           destruct Hcalls as [[Hlow Hup] Hexact]
       end.
  all: cbn [trace clock_calls record set_trace set_clock_calls].
  all: rewrite ?seq_S, ?fmap_app, !clock_readings_app, Hinv.
  all: cbn [clock_readings fmap list_fmap Nat.add]; rewrite ?app_nil_r.
  all: (split; [reflexivity|split; [lia|]]).
  all: intros response' [= <-]; split; [lia|]; try discriminate.
  all: intros _; rewrite Hexact by done; lia.
Qed.

Lemma clock_is_read_once_per_chunk_witness :
  let w := steady_world 1700000000 0.25 kilobyte_response in
  let r := run w "http://example.com/pub/name.ext" (Some 16) None in
  clock_calls (snd r) = (2 + length (chunks kilobyte_response))%nat.
Proof.
  intros w r.
  apply (proj2 (proj2 (proj2 (clock_is_read_once_per_chunk w
                                "http://example.com/pub/name.ext"
                                (Some 16) None))
                  kilobyte_response eq_refl)).
  vm_compute. reflexivity.
Defined.

(** ** The final status *)

(** X11. A call that returns has printed, as its last two lines, the
    summary and the name of the file.  The summary shows the size of the
    body, the float difference of the reading of the clock taken after the
    loop and the first reading, which is not zero, and the size divided by
    that time, both with two decimals. *)
Theorem summary_reports_average (w : World) (url : string)
    (custom_tos : option Z) (output : option string) (response : Response)
    (s' : state) :
  respond w url = inr response ->
  run w url custom_tos output = (inr tt, s') ->
  let total := total_len (chunks response) in
  let elapsed := (clock w (S (length (chunks response))) - clock w 0)%float in
  (elapsed =? 0)%float = false
  /\ exists before,
       trace s' =
       before ++
       [Print (Py.LF +:+ "Downloaded: " +:+ Py.str total +:+ " bytes in "
               +:+ Py.format_f 0 2 elapsed +:+ " seconds| Speed: "
               +:+ Py.format_f 0 2 (Py.float_of_int total / elapsed)
               +:+ " bytes/sec") Py.LF;
        Print ("File saved as: " +:+ destination output url) Py.LF].
Proof.
  intros Hrespond. rewrite run_spec, Hrespond.
  case_header; case_open; try discriminate.
  all: match goal with
       | |- context [for_ ?cs ?b ?s] =>
           pose proof (loop_frame w cs s) as (Hstart & _ & _ & Hname & _);
           pose proof (loop_clock_calls w cs s) as Hcalls;
           pose proof (loop_finished w cs s) as Hfin;
           cbn zeta in Hcalls
       end.
  all: case_loop; try discriminate; intros [= <-]; cbn zeta.
  all: cbn [fst snd] in *.
  all: destruct Hcalls as [_ Hcalls]; specialize (Hcalls eq_refl).
  all: destruct (Hfin _ eq_refl) as [Hdb _].
  all: cbn in Hstart, Hname, Hcalls, Hdb.
  all: cbn [trace record set_trace set_clock_calls downloaded_bytes
              start_time clock_calls filename] in *.
  all: rewrite Hstart, Hcalls, Hdb, ?Hname in *.
  all: (split; [exact Hzero|]).
  all: rewrite Z.add_0_l.
  all: eexists (trace s4 ++ [CloseFile; CloseResponse; Clock _]).
  all: rewrite <- !app_assoc; reflexivity.
Qed.

Lemma summary_reports_average_witness :
  let w := steady_world 1700000000 0.25 kilobyte_response in
  let url := "http://example.com/pub/name.ext" in
  let total := total_len (chunks kilobyte_response) in
  let elapsed := (clock w (S (length (chunks kilobyte_response)))
                  - clock w 0)%float in
  (elapsed =? 0)%float = false
  /\ exists before,
       trace (snd (run w url (Some 16) None)) =
       before ++
       [Print (Py.LF +:+ "Downloaded: " +:+ Py.str total +:+ " bytes in "
               +:+ Py.format_f 0 2 elapsed +:+ " seconds| Speed: "
               +:+ Py.format_f 0 2 (Py.float_of_int total / elapsed)
               +:+ " bytes/sec") Py.LF;
        Print ("File saved as: " +:+ destination None url) Py.LF].
Proof.
  intros w url.
  apply (summary_reports_average w url (Some 16) None kilobyte_response
           (snd (run w url (Some 16) None)));
    [reflexivity|vm_compute; reflexivity].
Defined.

(** ** The status line for a declared size *)

(** X13. When the declared length is a number that is not positive, zero
    or negative, every status line of the call reads "Downloaded: [n]", a
    slash and the header value, " bytes", and the percentage field
    ["??%"]: no percentage is ever computed, so no division by the size
    takes place. *)
Theorem nonpositive_size_is_unknown (w : World) (url : string)
    (custom_tos : option Z) (output : option string) (response : Response)
    (n : Z) :
  respond w url = inr response ->
  Headers.contains "Content-Length" (headers response) = true ->
  Py.int (Headers.getitem "Content-Length" (headers response)) = Some n ->
  n <= 0 ->
  size (snd (run w url custom_tos output)) = n
  /\ Forall (fun line =>
               exists (count : Z) (speed : string),
                 line = "Downloaded: " +:+ Py.str count +:+ "/"
                        +:+ Headers.getitem "Content-Length" (headers response)
                        +:+ " bytes  ??%| Speed: " +:+ speed +:+ " bytes/sec")
       (progress_lines (trace (snd (run w url custom_tos output)))).
Proof.
  intros Hrespond Hcontains Hint Hn. split.
  - rewrite run_spec, Hrespond, read_content_length_spec, Hcontains.
    cbn zeta. rewrite Hint. case_open; [reflexivity|].
    match goal with
    | |- context [for_ ?cs ?b ?s] =>
        pose proof (loop_frame w cs s) as (_ & Hsize & _)
    end.
    case_loop; cbn in *; exact Hsize.
  - pose proof (run_percent_unknown w url custom_tos output response
                  ("/" +:+ Headers.getitem "Content-Length" (headers response))
                  Hrespond) as Hlines.
    rewrite read_content_length_spec, Hcontains in Hlines. cbn zeta in Hlines.
    rewrite Hint in Hlines. specialize (Hlines ltac:(done)).
    eapply Forall_impl; [exact Hlines|].
    intros line (count & speed & ->). exists count, speed.
    generalize (Py.str count). intros digits.
    generalize (Headers.getitem "Content-Length" (headers response)).
    intros v. clear.
    assert (forall a b c : string, (a +:+ b) +:+ c = a +:+ b +:+ c) as Hassoc.
    { intros a b c. induction a as [|x a IH]; [reflexivity|].
      change (String x a +:+ b +:+ c) with (String x (a +:+ b +:+ c)).
      change ((String x a +:+ b) +:+ c) with (String x ((a +:+ b) +:+ c)).
      by rewrite IH. }
    rewrite !Hassoc. reflexivity.
Qed.

Lemma nonpositive_size_is_unknown_witness :
  let response := mkResponse [("Content-Length", "-5")] [zeros 4; zeros 4] in
  let w := steady_world 1700000000 0.25 response in
  size (snd (run w "http://example.com/a" None None)) = -5
  /\ Forall (fun line =>
               exists (count : Z) (speed : string),
                 line = "Downloaded: " +:+ Py.str count +:+ "/"
                        +:+ Headers.getitem "Content-Length" (headers response)
                        +:+ " bytes  ??%| Speed: " +:+ speed +:+ " bytes/sec")
       (progress_lines (trace (snd (run w "http://example.com/a" None None)))).
Proof.
  intros response w.
  apply (nonpositive_size_is_unknown w "http://example.com/a" None None
           response (-5)); [reflexivity|reflexivity|reflexivity|lia].
Defined.

(** The status line of that call, as text. *)
Example negative_length_line :
  progress_lines
    (trace (snd (run (steady_world 1700000000 0.25
                        (mkResponse [("Content-Length", "-5")]
                           [zeros 4; zeros 4]))
                   "http://example.com/a" None None)))
  = ["Downloaded: 4/-5 bytes  ??%| Speed:     16.00 bytes/sec"].
Proof. vm_compute. reflexivity. Qed.

(** ** The percentage at the declared size *)

(** The quotient of a positive [int] by itself is the float 1. *)
Lemma int_truediv_self (p : positive) :
  Py.int_truediv (Z.pos p) (Z.pos p) = 1%float.
Proof.
  unfold Py.int_truediv, Py.SF_of_int, SFdiv, SFdiv_core_binary.
  replace (Zdigits2 (Z.pos p) + 0 - (Zdigits2 (Z.pos p) + 0)) with 0 by lia.
  change (Z.min (fexp prec emax 0) (0 - 0)) with (-53).
  change (0 - 0 - -53) with 53. cbn iota.
  rewrite Z.shiftl_mul_pow2 by lia.
  assert (Z.div_eucl (Z.pos p * 2 ^ 53) (Z.pos p) = (2 ^ 53, 0)) as ->.
  { rewrite (surjective_pairing (Z.div_eucl _ _)).
    change (fst (Z.div_eucl ?a ?b)) with (a / b).
    change (snd (Z.div_eucl ?a ?b)) with (a mod b).
    rewrite Z.mul_comm, Z_div_mult, Z_mod_mult by lia. reflexivity. }
  unfold new_location, new_location_even, new_location_odd.
  destruct (Z.even (Z.pos p)); vm_compute; reflexivity.
Qed.

(** X15. When the byte count has reached a positive declared size, the
    percentage field reads ["100%"], whatever the size. *)
Theorem percent_complete (n : Z) : 0 < n -> percent_text n n = "100%".
Proof.
  intros Hn. destruct n as [|p|p]; try lia.
  unfold percent_text. rewrite int_truediv_self. vm_compute. reflexivity.
Qed.

Lemma percent_complete_witness : percent_text 2048 2048 = "100%".
Proof. apply (percent_complete 2048). lia. Defined.

(** ** An empty body *)



(** With a clock that goes back by a quarter of a second, the summary of
    that call shows a negative time and the speed of minus zero. *)
Example backwards_clock :
  let tr := trace (snd (run (steady_world 1700000000 (-0.25) empty_response)
                          "http://example.com/empty" None None)) in
  drop (length tr - 2) tr =
  [Print (Py.LF
          +:+ "Downloaded: 0 bytes in -0.25 seconds| Speed: -0.00 bytes/sec")
     Py.LF;
   Print "File saved as: empty" Py.LF].
Proof. vm_compute. reflexivity. Qed.

(** ** The percentage for a declared size *)

Lemma loop_percent_known (w : World) (cs : list Py.bytes) (cl : string)
    (n : Z) (s : state) :
  0 < n -> size s = n -> content_length s = cl ->
  Forall (status_shows_share cl n) (progress_lines (trace s)) ->
  Forall (status_shows_share cl n)
    (progress_lines (trace (snd (for_ cs (loop_body w) s)))).
Proof.
  intros Hn Hsize Hcl Hlines.
  apply (for_preserves (fun s' =>
    size s' = n /\ content_length s' = cl
    /\ Forall (status_shows_share cl n) (progress_lines (trace s')))
    (loop_body w)); [|done].
  clear s Hsize Hcl Hlines. intros x s (Hsize & Hcl & Hlines).
  body_cases w x s; destruct Hframe as (_ & F2 & F3 & _); rewrite F2, F3.
  all: (split; [done|]); (split; [done|]).
  all: rewrite Htr, progress_lines_app; cbn [progress_lines];
    change (is_CR Py.CR) with true; cbn iota; rewrite ?app_nil_r; try done.
  all: apply Forall_app; (split; [done|]).
  all: constructor; [|constructor].
  all: rewrite Hsize in Hp; destruct (0 <? n) eqn:E; [|lia].
  all: rewrite Hp, Hcl; eexists _, _; reflexivity.
Qed.

(** X12. When the response declares a length that is a positive number,
    every status line of the call shows that header value after a slash
    and, as its percentage, the byte count of the line divided by the
    declared length, as a float, times one hundred, with no decimals. *)
Theorem declared_size_is_shown (w : World) (url : string)
    (custom_tos : option Z) (output : option string) (response : Response)
    (n : Z) :
  respond w url = inr response ->
  Headers.contains "Content-Length" (headers response) = true ->
  Py.int (Headers.getitem "Content-Length" (headers response)) = Some n ->
  0 < n ->
  Forall (fun line =>
            exists (count : Z) (speed : string),
              line = "Downloaded: " +:+ Py.str count +:+ "/"
                     +:+ Headers.getitem "Content-Length" (headers response)
                     +:+ " bytes "
                     +:+ Py.format_f 3 0 (Py.int_truediv count n * 100)%float
                     +:+ "%| Speed: " +:+ speed +:+ " bytes/sec")
    (progress_lines (trace (snd (run w url custom_tos output)))).
Proof.
  intros Hrespond Hcontains Hint Hn.
  rewrite run_progress_lines, Hrespond, read_content_length_spec, Hcontains.
  cbn zeta. rewrite Hint. case_open; [constructor|].
  match goal with
  | |- context [for_ ?cs ?b ?s] =>
      pose proof (loop_percent_known w cs
        ("/" +:+ Headers.getitem "Content-Length" (headers response)) n s
        Hn eq_refl eq_refl ltac:(cbn; constructor)) as Hlines
  end.
  eapply Forall_impl; [exact Hlines|].
  intros line (count & speed & ->). exists count, speed.
  generalize (Py.str count). intros digits.
  generalize (Py.format_f 3 0 (Py.int_truediv count n * 100)). intros field.
  generalize (Headers.getitem "Content-Length" (headers response)).
  intros v. clear.
  assert (forall a b c : string, (a +:+ b) +:+ c = a +:+ b +:+ c) as Hassoc.
  { intros a b c. induction a as [|x a IH]; [reflexivity|].
    change (String x a +:+ b +:+ c) with (String x (a +:+ b +:+ c)).
    change ((String x a +:+ b) +:+ c) with (String x ((a +:+ b) +:+ c)).
    by rewrite IH. }
  rewrite !Hassoc. reflexivity.
Qed.

Lemma declared_size_is_shown_witness :
  let response := mkResponse [("Content-Length", "40")]
                    [zeros 23; zeros 17] in
  let w := steady_world 1700000000 1 response in
  Forall (fun line =>
            exists (count : Z) (speed : string),
              line = "Downloaded: " +:+ Py.str count +:+ "/"
                     +:+ Headers.getitem "Content-Length" (headers response)
                     +:+ " bytes "
                     +:+ Py.format_f 3 0 (Py.int_truediv count 40 * 100)%float
                     +:+ "%| Speed: " +:+ speed +:+ " bytes/sec")
    (progress_lines
       (trace (snd (run w "http://example.com/a" None None)))).
Proof.
  intros response w.
  apply (declared_size_is_shown w "http://example.com/a" None None
           response 40); reflexivity.
Defined.

(** 23 bytes of 40: the float product is just below 57.5, so the field
    reads 57, where the exact quotient would be rounded to 58. *)
Example share_is_a_float :
  progress_lines
    (trace (snd (run (steady_world 1700000000 1
                        (mkResponse [("Content-Length", "40")]
                           [zeros 23; zeros 17]))
                   "http://example.com/a" None None)))
  = ["Downloaded: 23/40 bytes  57%| Speed:     23.00 bytes/sec";
     "Downloaded: 40/40 bytes 100%| Speed:     20.00 bytes/sec"].
Proof. vm_compute. reflexivity. Qed.

(** ** Failures after the file is opened *)

(** X17. Once the file is open, a stream that breaks off or a file that
    cannot be closed makes the call raise: the file has been closed and
    the response released, these are the last two events, and no summary
    is printed.  When closing the file fails, the call raises the error of
    the closing, whatever the loop raised. *)
Theorem late_failures (w : World) (url : string) (custom_tos : option Z)
    (output : option string) (response : Response) :
  respond w url = inr response ->
  (Headers.contains "Content-Length" (headers response) = true ->
   Py.int (Headers.getitem "Content-Length" (headers response)) <> None) ->
  open_error w (destination output url) = None ->
  stream_error w <> None \/ close_error w <> None ->
  let r := run w url custom_tos output in
  (exists e, fst r = inl e)
  /\ (forall e, close_error w = Some e -> fst r = inl e)
  /\ (exists before, trace (snd r) = before ++ [CloseFile; CloseResponse]).
Proof.
  intros Hrespond Hheader Hopen Hlate. cbn zeta.
  rewrite run_spec, Hrespond. case_header; rewrite ?Hopen.
  2: by specialize (Hheader eq_refl).
  all: destruct (for_ _ _ _) as [r4 s4]; unfold loop_outcome.
  all: destruct (close_error w) as [ec|];
    [|destruct r4 as [el|[]];
      [|destruct (stream_error w) as [es|]; [|by destruct Hlate]]].
  all: cbn [fst snd trace record set_trace].
  all: (split; [by eexists|]); (split; [by intros ? [= ->]|]).
  all: exists (trace s4); by rewrite <- app_assoc.
Qed.

Lemma late_failures_witness :
  let w := full_disk_world 1700000000 0.25 kilobyte_response in
  let r := run w "http://example.com/pub/name.ext" None None in
  (exists e, fst r = inl e)
  /\ (forall e, close_error w = Some e -> fst r = inl e)
  /\ (exists before, trace (snd r) = before ++ [CloseFile; CloseResponse]).
Proof.
  intros w.
  apply (late_failures w "http://example.com/pub/name.ext" None None
           kilobyte_response);
    [reflexivity|intros _; vm_compute; discriminate|reflexivity
    |right; discriminate].
Defined.
